(** * Housing Hub backend: a model of [backend/server.js]

    The server keeps its documents in MongoDB collections (through Mongoose
    schemas), a process-wide [clients] map from user id to the live WebSocket
    of that user, and a table of REST routes.  This file embeds the socket
    handlers and the REST handlers as functions on an explicit server state
    and proves what they do.

    Conventions of the embedding:
    - an ObjectId is its hexadecimal string ([Id]); the model ranges over
      well-formed ids, so Mongoose's cast failures are outside it;
    - a collection is the list of its documents in insertion order;
    - the constraints the schemas declare ([required], [min], [max],
      [maxLength], [enum], unique indexes) are checked where Mongoose checks
      them, on [save];
    - a string is the UTF-8 encoding of the JavaScript string;
    - JSON numbers are integers that JavaScript represents exactly;
      timestamps are left out;
    - values produced outside the process (a fresh ObjectId, the URL an image
      host returns) are arguments of the handler that uses them;
    - an event of [step] is a handler run to completion; where a property
      depends on what runs while a handler awaits the database, the handler
      is split at the await ([post_conversations_lookup],
      [post_conversations_create]);
    - the token and password libraries, and JavaScript's Unicode-aware
      [String.prototype.toLowerCase] and [String.prototype.trim] where the
      schema's setters and the handlers apply them to user input, are
      parameters of the sections. *)

From stdpp Require Import gmap strings list fin_maps.
From Stdlib Require Import ZArith Ascii String.

Local Open Scope string_scope.

(** ** JavaScript values and string helpers *)

Abbreviation Id := string (only parsing).
Abbreviation ConnId := nat (only parsing).

(** [if (s)] on a string: the empty string is the only falsy one. *)
Definition truthy (s : string) : bool :=
  match s with EmptyString => false | String _ _ => true end.

(** [a === b] on strings. *)
Definition str_eq (a b : string) : bool := bool_decide (a = b).

(** [String.prototype.toLowerCase] on the letters A to Z.  The message
    handler lower-cases a text only to look for [help] in it, and no other
    character lower-cases to one of those four letters. *)
Definition lower_ascii (c : ascii) : ascii :=
  let n := nat_of_ascii c in
  if (65 <=? n)%nat && (n <=? 90)%nat then ascii_of_nat (n + 32) else c.

Fixpoint toLowerCase (s : string) : string :=
  match s with
  | EmptyString => EmptyString
  | String c s' => String (lower_ascii c) (toLowerCase s')
  end.

(** [s.includes(needle)]. *)
Fixpoint includes (needle s : string) : bool :=
  String.prefix needle s ||
  match s with EmptyString => false | String _ s' => includes needle s' end.

(** [s.length]: the number of UTF-16 code units of the string, read off its
    UTF-8 bytes.  A byte below 128 is one unit, the first byte of a two- or
    three-byte sequence one unit, the first byte of a four-byte sequence two
    units (a surrogate pair), and a continuation byte none. *)
Definition utf16_units (c : ascii) : nat :=
  let n := nat_of_ascii c in
  if (n <? 128)%nat then 1%nat
  else if (n <? 192)%nat then 0%nat
  else if (n <? 240)%nat then 1%nat
  else 2%nat.

Fixpoint js_length (s : string) : nat :=
  match s with
  | EmptyString => 0%nat
  | String c s' => (utf16_units c + js_length s')%nat
  end.

(** The values a property read on a document can give in the handlers below. *)
Inductive JsVal :=
| JUndefined
| JStr (s : string)
| JBool (b : bool).

(** [v === 'literal']. *)
Definition js_is_str (v : JsVal) (lit : string) : bool :=
  match v with JStr s => str_eq s lit | _ => false end.

(** ** Documents (the Mongoose schemas) *)

Inductive VerificationStatus := VNone | VPending | VApproved | VRejected.

Record User := {
  u_id : Id;
  username : string;
  email : string;
  password : string;
  user_type : string;
  profilePictureUrl : string;
  bio : string;
  isVerified : bool;
  verificationStatus : VerificationStatus;
  verificationDocument : string }.

Record Property := {
  p_id : Id;
  landlord_id : Id;
  title : string;
  description : option string;
  address : string;
  city : string;
  price : Z;
  property_type : string;
  bedrooms : option Z;
  bathrooms : option Z;
  amenities : option string;
  image_url : string;
  images : list string;
  lat : option Z;
  lng : option Z;
  virtual_tour_url : string }.

Record Favorite := { f_id : Id; f_user_id : Id; f_property_id : Id }.

Record Conversation := {
  c_id : Id; c_property_id : Id; student_id : Id; c_landlord_id : Id }.

Record Message := {
  m_id : Id; conversation_id : Id; sender_id : Id; content : string }.

Record PropertyView := { v_id : Id; v_property_id : Id }.

Record Notification := {
  n_id : Id; recipient_id : Id; n_sender_id : Id;
  n_message : string; link : string; isRead : bool }.

Record Review := {
  r_id : Id; r_property_id : Id; r_user_id : Id; rating : Z; comment : string }.

Record Db := {
  users : list User;
  properties : list Property;
  favorites : list Favorite;
  conversations : list Conversation;
  messages : list Message;
  views : list PropertyView;
  notifications : list Notification;
  reviews : list Review }.

Definition empty_db : Db :=
  {| users := []; properties := []; favorites := []; conversations := [];
     messages := []; views := []; notifications := []; reviews := [] |}.

(** What a rejected [save] throws. *)
Inductive DbError := ValidationError | DuplicateKey.

(** [error.code]: the driver numbers a duplicate key 11000; a validation error
    has no code. *)
Definition error_code (e : DbError) : option Z :=
  match e with DuplicateKey => Some 11000%Z | ValidationError => None end.

(** [Model.findById]. *)
Definition findById {A} (key : A → Id) (id : Id) (l : list A) : option A :=
  List.find (λ d, str_eq (key d) id) l.

(** ** The socket layer *)

Inductive ReadyState := CONNECTING | OPEN | CLOSING | CLOSED.

Global Instance ReadyState_eq_dec : EqDecision ReadyState.
Proof. solve_decision. Defined.

(** The fields the handlers put on, or read from, a [ws] object. *)
Record Socket := {
  ws_userId : option string;
  ws_userType : option string;
  readyState : ReadyState }.

Inductive ClientFrame :=
| AuthFrame (token : string)
| MessageFrame (conv : Id) (text : string)
| OtherFrame.

Inductive ServerFrame :=
| NewMessage (m : Message)
| NewNotification (n : Notification).

(** The timer the handler arms for the canned reply: what its callback
    closes over. *)
Record BotTimer := {
  bt_conversation : Id; bt_landlord : Id; bt_sender : Id; bt_recipient : Id }.

Record Server := {
  db : Db;
  clients : gmap string ConnId;
  sockets : gmap ConnId Socket;
  outbox : list (ConnId * ServerFrame);
  timers : list BotTimer }.

Record JwtPayload := { userId : string; jwt_username : string; userType : string }.

Definition set_db (d : Db) (st : Server) : Server :=
  {| db := d; clients := clients st; sockets := sockets st;
     outbox := outbox st; timers := timers st |}.

Definition set_clients (m : gmap string ConnId) (st : Server) : Server :=
  {| db := db st; clients := m; sockets := sockets st;
     outbox := outbox st; timers := timers st |}.

Definition set_sockets (m : gmap ConnId Socket) (st : Server) : Server :=
  {| db := db st; clients := clients st; sockets := m;
     outbox := outbox st; timers := timers st |}.

Definition set_messages (ms : list Message) (d : Db) : Db :=
  {| users := users d; properties := properties d; favorites := favorites d;
     conversations := conversations d; messages := ms; views := views d;
     notifications := notifications d; reviews := reviews d |}.

(** *** The connection registry: [clients.set], [clients.get], [clients.delete] *)

Definition register (uid : string) (c : ConnId) (m : gmap string ConnId) : gmap string ConnId :=
  <[uid := c]> m.

Definition unregister (uid : string) (m : gmap string ConnId) : gmap string ConnId :=
  delete uid m.

Definition get (uid : string) (m : gmap string ConnId) : option ConnId := m !! uid.

(** The entries the registry holds for one user id. *)
Definition tracked (uid : string) (m : gmap string ConnId) : list (string * ConnId) :=
  filter (λ kv, kv.1 = uid) (map_to_list m).

(** [clientWs && clientWs.readyState === ws.OPEN], for [clientWs = clients.get(id)]. *)
Definition open_client (st : Server) (id : string) : option ConnId :=
  c ← get id (clients st);
  s ← sockets st !! c;
  if decide (readyState s = OPEN) then Some c else None.

(** [[a, b].forEach(id => { ... clientWs.send(frame) })]. *)
Definition push_to (ids : list string) (f : ServerFrame) (st : Server) : list (ConnId * ServerFrame) :=
  omap (λ id, c ← open_client st id; Some (c, f)) ids.

Definition send_all (ids : list string) (f : ServerFrame) (st : Server) : Server :=
  {| db := db st; clients := clients st; sockets := sockets st;
     outbox := outbox st ++ push_to ids f st; timers := timers st |}.

(** [new Message({...}).save()]: the three fields are required; a required
    string must be non-empty. *)
Definition Message_save (m : Message) (d : Db) : DbError + Db :=
  if truthy (content m) then inr (set_messages (messages d ++ [m]) d)
  else inl ValidationError.

Definition bot_text : string :=
  "This is an automated reply. The landlord will get back to you soon. For quick questions about the property, try the 'Ask AI' button!".

Section Relay.

(** [jwt.verify(token, JWT_SECRET, cb)]: the payload of a valid token. *)
Context (jwt_verify : string → option JwtPayload).

(** [wss.on('connection', ws => ...)]: a new socket is open and carries no
    user. *)
Definition on_connection (c : ConnId) (st : Server) : Server :=
  set_sockets (<[c := {| ws_userId := None; ws_userType := None; readyState := OPEN |}]>
                 (sockets st)) st.

(** [ws.close()]. *)
Definition ws_close (c : ConnId) (st : Server) : Server :=
  match sockets st !! c with
  | Some s =>
      set_sockets (<[c := {| ws_userId := ws_userId s; ws_userType := ws_userType s;
                             readyState := match readyState s with
                                           | CLOSED => CLOSED | _ => CLOSING end |}]>
                     (sockets st)) st
  | None => st
  end.

(** The [auth] branch of the message handler. *)
Definition on_auth (c : ConnId) (token : string) (st : Server) : Server :=
  match jwt_verify token with
  | Some user =>
      set_sockets (alter (λ s, {| ws_userId := Some (userId user);
                                  ws_userType := Some (userType user);
                                  readyState := readyState s |}) c (sockets st))
        (set_clients (register (userId user) c (clients st)) st)
  | None => ws_close c st
  end.

(** The [message] branch, for a socket whose [ws.userId] is [sender].
    [oid] is the ObjectId of the new message.  An exception (the rejected
    [save]) leaves through the handler's [catch], which only logs. *)
Definition on_chat (sender : string) (sender_type : option string)
    (conv : Id) (text : string) (oid : Id) (st : Server) : Server :=
  match findById c_id conv (conversations (db st)) with
  | None => st
  | Some conversation =>
      let newMessage :=
        {| m_id := oid; conversation_id := conv; sender_id := sender; content := text |} in
      match Message_save newMessage (db st) with
      | inl _ => st
      | inr d =>
          let recipientId :=
            if str_eq (student_id conversation) sender
            then c_landlord_id conversation else student_id conversation in
          let st1 := send_all [sender; recipientId] (NewMessage newMessage) (set_db d st) in
          if bool_decide (sender_type = Some "student") && includes "help" (toLowerCase text)
          then {| db := db st1; clients := clients st1; sockets := sockets st1;
                  outbox := outbox st1;
                  timers := timers st1 ++
                    [{| bt_conversation := conv; bt_landlord := c_landlord_id conversation;
                        bt_sender := sender; bt_recipient := recipientId |}] |}
          else st1
      end
  end.

(** [ws.on('message', ...)] on socket [c]. *)
Definition on_message (c : ConnId) (frame : ClientFrame) (oid : Id) (st : Server) : Server :=
  match sockets st !! c with
  | None => st
  | Some s =>
      match frame with
      | AuthFrame token =>
          if truthy token then on_auth c token st else st
      | MessageFrame conv text =>
          match ws_userId s with
          | Some sender =>
              if truthy sender then on_chat sender (ws_userType s) conv text oid st else st
          | None => st
          end
      | OtherFrame => st
      end
  end.

(** The callback of the 1500 ms timer: the oldest armed timer fires. *)
Definition on_timer (oid : Id) (st : Server) : Server :=
  match timers st with
  | [] => st
  | t :: rest =>
      let st0 := {| db := db st; clients := clients st; sockets := sockets st;
                    outbox := outbox st; timers := rest |} in
      let botMessage :=
        {| m_id := oid; conversation_id := bt_conversation t;
           sender_id := bt_landlord t; content := bot_text |} in
      match Message_save botMessage (db st0) with
      | inl _ => st0
      | inr d => send_all [bt_sender t; bt_recipient t] (NewMessage botMessage) (set_db d st0)
      end
  end.

(** The socket has closed; then [ws.on('close', ...)] runs. *)
Definition on_close (c : ConnId) (st : Server) : Server :=
  match sockets st !! c with
  | None => st
  | Some s =>
      let st1 := set_sockets (<[c := {| ws_userId := ws_userId s; ws_userType := ws_userType s;
                                        readyState := CLOSED |}]> (sockets st)) st in
      match ws_userId s with
      | Some uid => if truthy uid then set_clients (unregister uid (clients st1)) st1 else st1
      | None => st1
      end
  end.

End Relay.

(** ** The REST layer *)

Inductive Body :=
| BText (text : string)
| BMessage (message : string)
| BFavorite (f : Favorite)
| BProperty (p : option Property)
| BReview (r : Review) (author : option (string * string))
| BVerification (message : string) (user : option User)
| BSession (token : string) (user : User)
| BUsername (message newUsername token : string)
| BPicture (message url : string)
| BBio (message newBio : string).

Record Response := { status : nat; body : Body }.

(** [res.sendStatus(n)]: the status with its reason phrase as the body. *)
Definition sendStatus (n : nat) (phrase : string) : Response :=
  {| status := n; body := BText phrase |}.

(** [res.status(n).json({ message })]. *)
Definition reply (n : nat) (message : string) : Response :=
  {| status := n; body := BMessage message |}.

(** [s.split(' ')]. *)
Fixpoint split_space (s : string) : list string :=
  match s with
  | EmptyString => [EmptyString]
  | String c s' =>
      if bool_decide (c = " "%char) then EmptyString :: split_space s'
      else match split_space s' with
           | w :: ws => String c w :: ws
           | [] => [String c EmptyString]
           end
  end.

(** Trimming of the ASCII white space: what [String.prototype.trim] does on
    an ASCII string.  The sample deployment instantiates the trim parameter
    with it. *)
Definition is_space (c : ascii) : bool :=
  let n := nat_of_ascii c in
  (n =? 32)%nat || ((9 <=? n)%nat && (n <=? 13)%nat).

Fixpoint trim_start (s : string) : string :=
  match s with
  | EmptyString => EmptyString
  | String c s' => if is_space c then trim_start s' else s
  end.

Fixpoint trim_end (s : string) : string :=
  match s with
  | EmptyString => EmptyString
  | String c s' =>
      match trim_end s' with
      | EmptyString => if is_space c then EmptyString else String c EmptyString
      | t => String c t
      end
  end.

Definition trim (s : string) : string := trim_end (trim_start s).

(** The first document that matches is replaced ([updateOne],
    [findByIdAndUpdate]) or removed ([findByIdAndDelete]). *)
Fixpoint update_first {A} (P : A → bool) (f : A → A) (l : list A) : list A :=
  match l with
  | [] => []
  | x :: l' => if P x then f x :: l' else x :: update_first P f l'
  end.

Fixpoint delete_first {A} (P : A → bool) (l : list A) : list A :=
  match l with
  | [] => []
  | x :: l' => if P x then l' else x :: delete_first P l'
  end.

(** [Model.deleteMany(filter)]. *)
Definition deleteMany {A} (P : A → bool) (l : list A) : list A :=
  List.filter (λ x, negb (P x)) l.

(** [{ $in: ids }]. *)
Definition id_in (ids : list Id) (id : Id) : bool := existsb (str_eq id) ids.

Definition set_users (us : list User) (d : Db) : Db :=
  {| users := us; properties := properties d; favorites := favorites d;
     conversations := conversations d; messages := messages d; views := views d;
     notifications := notifications d; reviews := reviews d |}.

Definition set_properties (ps : list Property) (d : Db) : Db :=
  {| users := users d; properties := ps; favorites := favorites d;
     conversations := conversations d; messages := messages d; views := views d;
     notifications := notifications d; reviews := reviews d |}.

Definition set_favorites (fs : list Favorite) (d : Db) : Db :=
  {| users := users d; properties := properties d; favorites := fs;
     conversations := conversations d; messages := messages d; views := views d;
     notifications := notifications d; reviews := reviews d |}.

Definition set_conversations (cs : list Conversation) (d : Db) : Db :=
  {| users := users d; properties := properties d; favorites := favorites d;
     conversations := cs; messages := messages d; views := views d;
     notifications := notifications d; reviews := reviews d |}.

Definition set_views (vs : list PropertyView) (d : Db) : Db :=
  {| users := users d; properties := properties d; favorites := favorites d;
     conversations := conversations d; messages := messages d; views := vs;
     notifications := notifications d; reviews := reviews d |}.

Definition set_notifications (ns : list Notification) (d : Db) : Db :=
  {| users := users d; properties := properties d; favorites := favorites d;
     conversations := conversations d; messages := messages d; views := views d;
     notifications := ns; reviews := reviews d |}.

Definition set_reviews (rs : list Review) (d : Db) : Db :=
  {| users := users d; properties := properties d; favorites := favorites d;
     conversations := conversations d; messages := messages d; views := views d;
     notifications := notifications d; reviews := rs |}.

(** *** Field updates on a user document *)

Definition with_verification (s : VerificationStatus) (verified : option bool)
    (document : option string) (u : User) : User :=
  {| u_id := u_id u; username := username u; email := email u; password := password u;
     user_type := user_type u; profilePictureUrl := profilePictureUrl u; bio := bio u;
     isVerified := default (isVerified u) verified;
     verificationStatus := s;
     verificationDocument := default (verificationDocument u) document |}.

Definition with_password (h : string) (u : User) : User :=
  {| u_id := u_id u; username := username u; email := email u; password := h;
     user_type := user_type u; profilePictureUrl := profilePictureUrl u; bio := bio u;
     isVerified := isVerified u; verificationStatus := verificationStatus u;
     verificationDocument := verificationDocument u |}.

Definition with_username (n : string) (u : User) : User :=
  {| u_id := u_id u; username := n; email := email u; password := password u;
     user_type := user_type u; profilePictureUrl := profilePictureUrl u; bio := bio u;
     isVerified := isVerified u; verificationStatus := verificationStatus u;
     verificationDocument := verificationDocument u |}.

Definition with_picture (url : string) (u : User) : User :=
  {| u_id := u_id u; username := username u; email := email u; password := password u;
     user_type := user_type u; profilePictureUrl := url; bio := bio u;
     isVerified := isVerified u; verificationStatus := verificationStatus u;
     verificationDocument := verificationDocument u |}.

Definition with_bio (b : string) (u : User) : User :=
  {| u_id := u_id u; username := username u; email := email u; password := password u;
     user_type := user_type u; profilePictureUrl := profilePictureUrl u; bio := b;
     isVerified := isVerified u; verificationStatus := verificationStatus u;
     verificationDocument := verificationDocument u |}.

Definition show_status (s : VerificationStatus) : string :=
  match s with
  | VNone => "none" | VPending => "pending"
  | VApproved => "approved" | VRejected => "rejected"
  end.

(** [user.field] on a user document: the schema's paths, and [undefined] for
    any other name. *)
Definition User_get (u : User) (field : string) : JsVal :=
  if str_eq field "username" then JStr (username u)
  else if str_eq field "email" then JStr (email u)
  else if str_eq field "password" then JStr (password u)
  else if str_eq field "user_type" then JStr (user_type u)
  else if str_eq field "profilePictureUrl" then JStr (profilePictureUrl u)
  else if str_eq field "bio" then JStr (bio u)
  else if str_eq field "isVerified" then JBool (isVerified u)
  else if str_eq field "verificationStatus" then JStr (show_status (verificationStatus u))
  else if str_eq field "verificationDocument" then JStr (verificationDocument u)
  else JUndefined.

(** *** Saving documents: validation, then the unique indexes *)

Definition user_types : list string := ["student"; "landlord"; "admin"].
Definition property_types : list string := ["apartment"; "house"; "room"].

(** The validators of [UserSchema]; [doc.save()] runs them on a new document
    and on a loaded one alike. *)
Definition User_validate (u : User) : bool :=
  truthy (username u) && truthy (email u) && truthy (password u)
  && existsb (str_eq (user_type u)) user_types
  && (js_length (bio u) <=? 250)%nat.

Definition User_save (u : User) (d : Db) : DbError + Db :=
  if User_validate u
  then if existsb (λ v, str_eq (username v) (username u) || str_eq (email v) (email u)) (users d)
       then inl DuplicateKey
       else inr (set_users (users d ++ [u]) d)
  else inl ValidationError.

Definition Property_save (p : Property) (d : Db) : DbError + Db :=
  if truthy (title p) && truthy (address p) && truthy (city p)
     && existsb (str_eq (property_type p)) property_types
  then inr (set_properties (properties d ++ [p]) d)
  else inl ValidationError.

Definition same_favorite (f g : Favorite) : bool :=
  str_eq (f_user_id f) (f_user_id g) && str_eq (f_property_id f) (f_property_id g).

Definition Favorite_save (f : Favorite) (d : Db) : DbError + Db :=
  if existsb (same_favorite f) (favorites d) then inl DuplicateKey
  else inr (set_favorites (favorites d ++ [f]) d).

Definition Notification_save (n : Notification) (d : Db) : DbError + Db :=
  if truthy (n_message n) then inr (set_notifications (notifications d ++ [n]) d)
  else inl ValidationError.

Definition same_review (r q : Review) : bool :=
  str_eq (r_property_id r) (r_property_id q) && str_eq (r_user_id r) (r_user_id q).

Definition Review_save (r : Review) (d : Db) : DbError + Db :=
  if (1 <=? rating r)%Z && (rating r <=? 5)%Z
     && truthy (comment r) && (js_length (comment r) <=? 1000)%nat
  then if existsb (same_review r) (reviews d) then inl DuplicateKey
       else inr (set_reviews (reviews d ++ [r]) d)
  else inl ValidationError.

(** The fields a request body may carry for a property; [strict] schemas drop
    every other key. *)
Record PropertyFields := {
  pf_landlord_id : option Id;
  pf_title : option string;
  pf_description : option string;
  pf_address : option string;
  pf_city : option string;
  pf_price : option Z;
  pf_property_type : option string;
  pf_bedrooms : option Z;
  pf_bathrooms : option Z;
  pf_amenities : option string;
  pf_image_url : option string;
  pf_images : option (list string);
  pf_lat : option Z;
  pf_lng : option Z;
  pf_virtual_tour_url : option string }.

(** [or_else new old]: a field of the update document, when present, replaces
    the stored one. *)
Definition or_else {A} (new : option A) (old : option A) : option A :=
  match new with Some _ => new | None => old end.

(** [findByIdAndUpdate(id, { ...req.body })] on the matched property. *)
Definition apply_fields (b : PropertyFields) (p : Property) : Property :=
  {| p_id := p_id p;
     landlord_id := default (landlord_id p) (pf_landlord_id b);
     title := default (title p) (pf_title b);
     description := or_else (pf_description b) (description p);
     address := default (address p) (pf_address b);
     city := default (city p) (pf_city b);
     price := default (price p) (pf_price b);
     property_type := default (property_type p) (pf_property_type b);
     bedrooms := or_else (pf_bedrooms b) (bedrooms p);
     bathrooms := or_else (pf_bathrooms b) (bathrooms p);
     amenities := or_else (pf_amenities b) (amenities p);
     image_url := default (image_url p) (pf_image_url b);
     images := default (images p) (pf_images b);
     lat := or_else (pf_lat b) (lat p);
     lng := or_else (pf_lng b) (lng p);
     virtual_tour_url := default (virtual_tour_url p) (pf_virtual_tour_url b) |}.

(** [x || null] on a number that may be missing: zero is falsy. *)
Definition or_null (x : option Z) : option Z :=
  match x with
  | Some 0%Z => None
  | _ => x
  end.

(** [new Property({ ...req.body, image_url, images, landlord_id, lat, lng,
    virtual_tour_url })]; [None] when a required path is missing.  The
    numbers of a body are integers that JavaScript represents exactly, below
    2^53 in size; the model does not range over others. *)
Definition new_property (oid : Id) (b : PropertyFields) (imageUrls : list string)
    (owner : Id) : option Property :=
  t ← pf_title b; a ← pf_address b; c ← pf_city b; pr ← pf_price b;
  ty ← pf_property_type b;
  Some {| p_id := oid; landlord_id := owner; title := t;
          description := pf_description b; address := a; city := c; price := pr;
          property_type := ty; bedrooms := pf_bedrooms b; bathrooms := pf_bathrooms b;
          amenities := pf_amenities b;
          image_url := default "" (head imageUrls);
          images := imageUrls;
          lat := or_null (pf_lat b); lng := or_null (pf_lng b);
          virtual_tour_url := default "" (pf_virtual_tour_url b) |}.

(** The loop over [req.files]: each entry is what the image host answered,
    [None] for an error, which rejects the promise and leaves the loop. *)
Fixpoint upload_all (results : list (option string)) : option (list string) :=
  match results with
  | [] => Some []
  | None :: _ => None
  | Some url :: rest => urls ← upload_all rest; Some (url :: urls)
  end.

Definition denied_message : string :=
  "⛔ Access Denied: You must be a Verified Landlord to post properties. Please upload your ID in the Profile section.".

Section Rest.

(** [String_toLowerCase] and [String_trim] are JavaScript's
    [String.prototype.toLowerCase] and [String.prototype.trim]. *)
Context (jwt_verify : string → option JwtPayload)
        (jwt_sign : JwtPayload → string)
        (bcrypt_hash : string → string)
        (bcrypt_compare : string → string → bool)
        (String_toLowerCase String_trim : string → string).

(** [authHeader && authHeader.split(' ')[1]]. *)
Definition bearer (authorization : option string) : option string :=
  match authorization with
  | None => None
  | Some h => if truthy h then split_space h !! 1%nat else Some h
  end.

(** The [authenticateToken] middleware: the response that ends the request,
    or [req.user]. *)
Definition authenticateToken (authorization : option string) : Response + JwtPayload :=
  match bearer authorization with
  | None => inl (sendStatus 401 "Unauthorized")
  | Some token =>
      match jwt_verify token with
      | None => inl (sendStatus 403 "Forbidden")
      | Some user => inr user
      end
  end.

(** A route behind [authenticateToken]. *)
Definition authenticated (authorization : option string)
    (handler : JwtPayload → Server → Response * Server) (st : Server) : Response * Server :=
  match authenticateToken authorization with
  | inl r => (r, st)
  | inr user => handler user st
  end.

(** [POST /api/properties].  [files] holds the image host's answer for each
    of the uploaded images (multer admits five), [oid] is the ObjectId of the
    new property. *)
Definition post_properties (authorization : option string) (b : PropertyFields)
    (files : list (option string)) (oid : Id) : Server → Response * Server :=
  authenticated authorization (λ req_user st,
    let failed := (reply 500 "Server error adding property", st) in
    match findById u_id (userId req_user) (users (db st)) with
    | None => failed
    | Some user =>
        if js_is_str (User_get user "userType") "landlord" && negb (isVerified user)
        then (reply 403 denied_message, st)
        else
          match upload_all files with
          | None => failed
          | Some imageUrls =>
              match new_property oid b imageUrls (userId req_user) with
              | None => failed
              | Some newProperty =>
                  match Property_save newProperty (db st) with
                  | inl _ => failed
                  | inr d => ({| status := 201; body := BProperty (Some newProperty) |},
                              set_db d st)
                  end
              end
          end
    end).

(** [PUT /api/properties/:id]. *)
Definition put_property (authorization : option string) (id : Id) (b : PropertyFields)
    : Server → Response * Server :=
  authenticated authorization (λ req_user st,
    match findById p_id id (properties (db st)) with
    | None => (reply 404 "Property not found", st)
    | Some property =>
        if negb (str_eq (landlord_id property) (userId req_user))
        then (reply 403 "User not authorized", st)
        else
          let ps := update_first (λ p, str_eq (p_id p) id) (apply_fields b)
                      (properties (db st)) in
          ({| status := 200; body := BProperty (findById p_id id ps) |},
           set_db (set_properties ps (db st)) st)
    end).

(** [DELETE /api/properties/:id]. *)
Definition delete_property (authorization : option string) (id : Id)
    : Server → Response * Server :=
  authenticated authorization (λ req_user st,
    match findById p_id id (properties (db st)) with
    | None => (reply 404 "Property not found", st)
    | Some property =>
        if negb (str_eq (landlord_id property) (userId req_user))
        then (reply 403 "User not authorized", st)
        else
          (reply 200 "Property removed",
           set_db (set_properties
                     (delete_first (λ p, str_eq (p_id p) id) (properties (db st)))
                     (db st)) st)
    end).

(** [POST /api/favorites].  [fid] and [nid] are the ObjectIds of the new
    favorite and of the notification. *)
Definition post_favorites (authorization : option string) (property_id : option Id)
    (fid nid : Id) : Server → Response * Server :=
  authenticated authorization (λ req_user st,
    let failed := (reply 500 "Error adding favorite", st) in
    match property_id with
    | None => failed
    | Some pid =>
        let favorite :=
          {| f_id := fid; f_user_id := userId req_user; f_property_id := pid |} in
        match Favorite_save favorite (db st) with
        | inl _ => failed
        | inr d =>
            let created := {| status := 201; body := BFavorite favorite |} in
            match findById p_id pid (properties d) with
            | None => (created, set_db d st)
            | Some property =>
                if negb (str_eq (landlord_id property) (userId req_user)) then
                  let notification :=
                    {| n_id := nid; recipient_id := landlord_id property;
                       n_sender_id := userId req_user;
                       n_message := "Your property '" ++ title property
                                      ++ "' has a new favorite!";
                       link := "/properties/" ++ pid; isRead := false |} in
                  match Notification_save notification d with
                  | inl _ => (reply 500 "Error adding favorite", set_db d st)
                  | inr d' =>
                      (created,
                       send_all [landlord_id property] (NewNotification notification)
                         (set_db d' st))
                  end
                else (created, set_db d st)
            end
        end
    end).

(** [POST /api/properties/:propertyId/reviews].  [rid] is the ObjectId of
    the new review; a missing [rating] is [None], a missing [comment] is
    the empty string. *)
Definition post_review (authorization : option string) (propertyId : Id)
    (rating : option Z) (comment : string) (rid : Id) : Server → Response * Server :=
  authenticated authorization (λ req_user st,
    if negb (str_eq (userType req_user) "student")
    then (reply 403 "Only students can leave reviews.", st)
    else
      match rating with
      | None => (reply 400 "Rating and comment are required.", st)
      | Some r =>
          if (r =? 0)%Z || negb (truthy comment)
          then (reply 400 "Rating and comment are required.", st)
          else
            let newReview :=
              {| r_id := rid; r_property_id := propertyId; r_user_id := userId req_user;
                 rating := r; comment := comment |} in
            match Review_save newReview (db st) with
            | inr d =>
                ({| status := 201;
                    body := BReview newReview
                              ((λ u, (username u, profilePictureUrl u)) <$>
                                 findById u_id (userId req_user) (users d)) |},
                 set_db d st)
            | inl error =>
                if bool_decide (error_code error = Some 11000%Z)
                then (reply 409 "You have already reviewed this property.", st)
                else (reply 500 "Server error posting review.", st)
            end
      end).

(** [POST /api/signup].  The schema's setters trim the user name and
    lower-case the e-mail, in the queries as in the new document. *)
Definition signup (email_in password_in userType_in username_in : string) (oid : Id)
    (st : Server) : Response * Server :=
  let mail := String_toLowerCase email_in in
  let name := String_trim username_in in
  if existsb (λ u, str_eq (email u) mail) (users (db st))
  then (reply 409 "Email already registered.", st)
  else if existsb (λ u, str_eq (username u) name) (users (db st))
  then (reply 409 "Username is already taken.", st)
  else
    let newUser :=
      {| u_id := oid; username := name; email := mail;
         password := bcrypt_hash password_in; user_type := userType_in;
         profilePictureUrl := ""; bio := ""; isVerified := false;
         verificationStatus := VNone; verificationDocument := "" |} in
    match User_save newUser (db st) with
    | inl _ => (reply 500 "Server error during signup.", st)
    | inr d =>
        ({| status := 201;
            body := BSession (jwt_sign {| userId := oid; jwt_username := name;
                                          userType := userType_in |}) newUser |},
         set_db d st)
    end.

(** [POST /api/upload-verification].  The route has no middleware: the user
    id comes from the body. *)
Definition upload_verification (userId_in documentImage : string) (st : Server)
    : Response * Server :=
  if negb (truthy userId_in) || negb (truthy documentImage)
  then (reply 400 "Missing user ID or document", st)
  else
    let us := update_first (λ u, str_eq (u_id u) userId_in)
                (with_verification VPending None (Some documentImage)) (users (db st)) in
    match findById u_id userId_in us with
    | None => (reply 404 "User not found", st)
    | Some updatedUser =>
        ({| status := 200;
            body := BVerification
                      "Verification submitted successfully! Please wait for Admin approval."
                      (Some updatedUser) |},
         set_db (set_users us (db st)) st)
    end.

(** [POST /api/admin/verify-action].  The route has no middleware either. *)
Definition verify_action (userId_in action : string) (st : Server) : Response * Server :=
  if negb (existsb (str_eq action) ["approve"; "reject"])
  then (reply 400 "Invalid action", st)
  else
    let new_status := if str_eq action "approve" then VApproved else VRejected in
    let verified := str_eq action "approve" in
    let us := update_first (λ u, str_eq (u_id u) userId_in)
                (with_verification new_status (Some verified) None) (users (db st)) in
    ({| status := 200;
        body := BVerification ("User " ++ show_status new_status ++ " successfully!")
                  (findById u_id userId_in us) |},
     set_db (set_users us (db st)) st).

(** [POST /api/profile/change-password]. *)
Definition change_password (authorization : option string)
    (currentPassword newPassword : string) : Server → Response * Server :=
  authenticated authorization (λ req_user st,
    if negb (truthy currentPassword) || negb (truthy newPassword)
    then (reply 400 "All fields are required.", st)
    else
      match findById u_id (userId req_user) (users (db st)) with
      | None => (reply 404 "User not found.", st)
      | Some user =>
          if negb (bcrypt_compare currentPassword (password user))
          then (reply 401 "Incorrect current password.", st)
          else
            (reply 200 "Password updated successfully!",
             set_db (set_users
                       (update_first (λ u, str_eq (u_id u) (userId req_user))
                          (with_password (bcrypt_hash newPassword)) (users (db st)))
                       (db st)) st)
      end).

(** [PUT /api/profile/update-username]. *)
Definition update_username (authorization : option string) (newUsername : string)
    : Server → Response * Server :=
  authenticated authorization (λ req_user st,
    if negb (truthy newUsername) || str_eq (String_trim newUsername) ""
    then (reply 400 "Username cannot be empty.", st)
    else
      let name := String_trim newUsername in
      if existsb (λ u, str_eq (username u) name && negb (str_eq (u_id u) (userId req_user)))
           (users (db st))
      then (reply 409 "Username is already taken.", st)
      else
        let us := update_first (λ u, str_eq (u_id u) (userId req_user))
                    (with_username name) (users (db st)) in
        let st' := set_db (set_users us (db st)) st in
        match findById u_id (userId req_user) us with
        | None => (reply 500 "Server error updating username.", st')
        | Some updatedUser =>
            ({| status := 200;
                body := BUsername "Username updated successfully!" (username updatedUser)
                          (jwt_sign {| userId := u_id updatedUser;
                                       jwt_username := username updatedUser;
                                       userType := user_type updatedUser |}) |},
             st')
        end).

(** [PUT /api/profile/upload-picture].  [file] is [req.file] with the image
    host's answer to its upload. *)
Definition upload_picture (authorization : option string) (file : option (option string))
    : Server → Response * Server :=
  authenticated authorization (λ req_user st,
    match file with
    | None => (reply 400 "No file uploaded.", st)
    | Some None => (reply 500 "Server error uploading profile picture.", st)
    | Some (Some url) =>
        ({| status := 200; body := BPicture "Profile picture updated successfully!" url |},
         set_db (set_users
                   (update_first (λ u, str_eq (u_id u) (userId req_user))
                      (with_picture url) (users (db st)))
                   (db st)) st)
    end).

(** [PUT /api/profile/update-bio]. *)
Definition update_bio (authorization : option string) (new_bio : string)
    : Server → Response * Server :=
  authenticated authorization (λ req_user st,
    match findById u_id (userId req_user) (users (db st)) with
    | None => (reply 404 "User not found.", st)
    | Some user =>
        if User_validate (with_bio new_bio user)
        then
          ({| status := 200; body := BBio "Bio updated successfully!" new_bio |},
           set_db (set_users
                     (update_first (λ u, str_eq (u_id u) (userId req_user))
                        (with_bio new_bio) (users (db st)))
                     (db st)) st)
        else (reply 500 "Server error updating bio.", st)
    end).

(** The cascade of [POST /api/profile/delete-account], by [req.user.userType]. *)
Definition cascade (req_user : JwtPayload) (d : Db) : Db :=
  if str_eq (userType req_user) "landlord" then
    let found := List.filter (λ p, str_eq (landlord_id p) (userId req_user)) (properties d) in
    let propertyIds := List.map p_id found in
    let d1 := set_properties
                (deleteMany (λ p, str_eq (landlord_id p) (userId req_user)) (properties d)) d in
    let d2 := set_favorites
                (deleteMany (λ f, id_in propertyIds (f_property_id f)) (favorites d1)) d1 in
    let d3 := set_conversations
                (deleteMany (λ c, id_in propertyIds (c_property_id c)) (conversations d2)) d2 in
    set_views (deleteMany (λ v, id_in propertyIds (v_property_id v)) (views d3)) d3
  else if str_eq (userType req_user) "student" then
    let d1 := set_favorites
                (deleteMany (λ f, str_eq (f_user_id f) (userId req_user)) (favorites d)) d in
    set_conversations
      (deleteMany (λ c, str_eq (student_id c) (userId req_user)) (conversations d1)) d1
  else d.

(** [POST /api/profile/delete-account]. *)
Definition delete_account (authorization : option string) (password_in : string)
    : Server → Response * Server :=
  authenticated authorization (λ req_user st,
    if negb (truthy password_in)
    then (reply 400 "Password is required for deletion.", st)
    else
      match findById u_id (userId req_user) (users (db st)) with
      | None => (reply 404 "User not found.", st)
      | Some user =>
          if negb (bcrypt_compare password_in (password user))
          then (reply 401 "Incorrect password.", st)
          else
            let d := cascade req_user (db st) in
            (reply 200 "Your account has been permanently deleted.",
             set_db (set_users
                       (delete_first (λ u, str_eq (u_id u) (userId req_user)) (users d)) d)
               st)
      end).

(** The requests of the routes above, each with its [Authorization] header;
    the first three routes are registered without [authenticateToken] and
    never read it.  Every route of [server.js] that writes the user, favorite
    or review collection is among them. *)
Inductive Request :=
| PostSignup (authorization : option string)
    (email_in password_in userType_in username_in : string) (oid : Id)
| PostUploadVerification (authorization : option string) (userId_in documentImage : string)
| PostVerifyAction (authorization : option string) (userId_in action : string)
| PostProperties (authorization : option string) (b : PropertyFields)
    (files : list (option string)) (oid : Id)
| PutProperty (authorization : option string) (id : Id) (b : PropertyFields)
| DeleteProperty (authorization : option string) (id : Id)
| PostFavorites (authorization : option string) (property_id : option Id) (fid nid : Id)
| PostReview (authorization : option string) (propertyId : Id) (rating : option Z)
    (comment : string) (rid : Id)
| PostChangePassword (authorization : option string) (currentPassword newPassword : string)
| PutUpdateUsername (authorization : option string) (newUsername : string)
| PutUploadPicture (authorization : option string) (file : option (option string))
| PutUpdateBio (authorization : option string) (new_bio : string)
| PostDeleteAccount (authorization : option string) (password_in : string).

Definition handle (r : Request) : Server → Response * Server :=
  match r with
  | PostSignup _ e p t n oid => signup e p t n oid
  | PostUploadVerification _ u doc => upload_verification u doc
  | PostVerifyAction _ u a => verify_action u a
  | PostProperties h b files oid => post_properties h b files oid
  | PutProperty h id b => put_property h id b
  | DeleteProperty h id => delete_property h id
  | PostFavorites h pid fid nid => post_favorites h pid fid nid
  | PostReview h pid r c rid => post_review h pid r c rid
  | PostChangePassword h c n => change_password h c n
  | PutUpdateUsername h n => update_username h n
  | PutUploadPicture h f => upload_picture h f
  | PutUpdateBio h b => update_bio h b
  | PostDeleteAccount h p => delete_account h p
  end.

Definition authorization_of (r : Request) : option string :=
  match r with
  | PostSignup h _ _ _ _ _ | PostUploadVerification h _ _ | PostVerifyAction h _ _
  | PostProperties h _ _ _ | PutProperty h _ _ | DeleteProperty h _
  | PostFavorites h _ _ _ | PostReview h _ _ _ _ | PostChangePassword h _ _
  | PutUpdateUsername h _ | PutUploadPicture h _ | PutUpdateBio h _
  | PostDeleteAccount h _ => h
  end.

(** The caller is an administrator: the request carries a token that
    verifies and names the [admin] user type. *)
Definition from_admin (r : Request) : bool :=
  match authenticateToken (authorization_of r) with
  | inr user => str_eq (userType user) "admin"
  | inl _ => false
  end.

End Rest.

(** ** The remaining routes

    The routes that only read answer with [Reply]: the response that refuses
    the request, or the status and the JSON value sent.  Where a query sorts
    by [createdAt], documents are taken to be created in insertion order:
    ascending is the order of the collection, descending its reverse. *)

Inductive Reply (A : Type) :=
| Refused (r : Response)
| Sent (code : nat) (a : A).

Arguments Refused {A} r.
Arguments Sent {A} code a.

(** What the call to the text-generation service gives: the request failed
    (rejected, not [ok], or no JSON), or the text found in the answer. *)
Inductive AiResult :=
| AiError
| AiAnswer (text : option string).

(** [query.limit(n)] behind [if (limit)]: zero (as a missing or unreadable
    parameter) sets no limit. *)
Definition limited {A} (limit : nat) (l : list A) : list A :=
  match limit with O => l | S _ => take limit l end.

Definition set_isRead (b : bool) (n : Notification) : Notification :=
  {| n_id := n_id n; recipient_id := recipient_id n; n_sender_id := n_sender_id n;
     n_message := n_message n; link := link n; isRead := b |}.

(** [Model.updateMany(filter, update)]. *)
Definition updateMany {A} (P : A → bool) (f : A → A) (l : list A) : list A :=
  List.map (λ x, if P x then f x else x) l.

Definition Conversation_save (c : Conversation) (d : Db) : Db :=
  set_conversations (conversations d ++ [c]) d.

Definition PropertyView_create (v : PropertyView) (d : Db) : Db :=
  set_views (views d ++ [v]) d.

Section Routes.

Context (jwt_verify : string → option JwtPayload)
        (jwt_sign : JwtPayload → string)
        (bcrypt_hash : string → string)
        (bcrypt_compare : string → string → bool)
        (String_toLowerCase String_trim : string → string)
        (GEMINI_API_KEY : option string).

(** [POST /api/login]. *)
Definition login (email_in password_in : string) (st : Server) : Response :=
  match List.find (λ u, str_eq (email u) (String_toLowerCase email_in))
          (users (db st)) with
  | None => reply 401 "Invalid email or password."
  | Some user =>
      if bcrypt_compare password_in (password user)
      then {| status := 200;
              body := BSession (jwt_sign {| userId := u_id user;
                                            jwt_username := username user;
                                            userType := user_type user |}) user |}
      else reply 401 "Invalid email or password."
  end.

(** [GET /api/properties/:id]. *)
Definition get_property (id : Id) (st : Server) : Reply Property :=
  match findById p_id id (properties (db st)) with
  | None => Refused (reply 404 "Property not found")
  | Some property => Sent 200 property
  end.

(** [POST /api/properties/:propertyId/view]; [vid] is the ObjectId of the
    new view. *)
Definition post_view (propertyId : Id) (vid : Id) (st : Server) : Response * Server :=
  (reply 200 "View recorded.",
   set_db (PropertyView_create {| v_id := vid; v_property_id := propertyId |} (db st)) st).

(** [GET /api/favorites]: the caller's favorites, newest first, cut at the
    limit, each replaced by its property, and those without one dropped. *)
Definition get_favorites (authorization : option string) (limit : nat) (st : Server)
    : Reply (list Property) :=
  match authenticateToken jwt_verify authorization with
  | inl r => Refused r
  | inr req_user =>
      let favs := List.filter (λ f, str_eq (f_user_id f) (userId req_user))
                    (favorites (db st)) in
      Sent 200 (omap (λ fav, findById p_id (f_property_id fav) (properties (db st)))
                  (limited limit (rev favs)))
  end.

(** [DELETE /api/favorites/:propertyId]. *)
Definition delete_favorite (authorization : option string) (propertyId : Id)
    : Server → Response * Server :=
  authenticated jwt_verify authorization (λ req_user st,
    (reply 200 "Favorite removed",
     set_db (set_favorites
               (delete_first (λ f, str_eq (f_user_id f) (userId req_user)
                                   && str_eq (f_property_id f) propertyId)
                  (favorites (db st)))
               (db st)) st)).

(** [POST /api/conversations] awaits the database twice, and other requests
    run in between.  Up to the first result: the lookup of a conversation for
    the (property, caller) pair, which ends the request when it finds one. *)
Definition post_conversations_lookup (authorization : option string) (property_id : Id)
    (st : Server) : Reply Id + JwtPayload :=
  match authenticateToken jwt_verify authorization with
  | inl r => inl (Refused r)
  | inr req_user =>
      match List.find (λ c, str_eq (c_property_id c) property_id
                            && str_eq (student_id c) (userId req_user))
              (conversations (db st)) with
      | Some convo => inl (Sent 200 (c_id convo))
      | None => inr req_user
      end
  end.

(** After the lookup found nothing: the new conversation is saved, in the
    state the server has by then.  [cid] is its ObjectId; the schema has no
    unique index. *)
Definition post_conversations_create (req_user : JwtPayload) (property_id landlord_id : Id)
    (cid : Id) (st : Server) : Reply Id * Server :=
  let newConvo := {| c_id := cid; c_property_id := property_id;
                     student_id := userId req_user;
                     c_landlord_id := landlord_id |} in
  (Sent 201 cid, set_db (Conversation_save newConvo (db st)) st).

(** The request when nothing runs between its lookup and its save.  The
    reply carries [conversationId]. *)
Definition post_conversations (authorization : option string) (property_id landlord_id : Id)
    (cid : Id) (st : Server) : Reply Id * Server :=
  match post_conversations_lookup authorization property_id st with
  | inl r => (r, st)
  | inr req_user => post_conversations_create req_user property_id landlord_id cid st
  end.

(** The filter [{ $or: [{ student_id: id }, { landlord_id: id }] }]. *)
Definition participant (uid : string) (c : Conversation) : bool :=
  str_eq (student_id c) uid || str_eq (c_landlord_id c) uid.

(** [GET /api/conversations]; the populated fields are left out. *)
Definition get_conversations (authorization : option string) (st : Server)
    : Reply (list Conversation) :=
  match authenticateToken jwt_verify authorization with
  | inl r => Refused r
  | inr req_user =>
      Sent 200 (List.filter (participant (userId req_user)) (conversations (db st)))
  end.

(** [GET /api/conversations/:id/messages]. *)
Definition get_messages (authorization : option string) (id : Id) (st : Server)
    : Reply (list Message) :=
  match authenticateToken jwt_verify authorization with
  | inl r => Refused r
  | inr req_user =>
      match List.find (λ c, str_eq (c_id c) id && participant (userId req_user) c)
              (conversations (db st)) with
      | None => Refused (reply 403 "Unauthorized.")
      | Some convo =>
          Sent 200 (List.filter (λ m, str_eq (conversation_id m) id) (messages (db st)))
      end
  end.

(** [GET /api/properties/:propertyId/reviews/summary]; [ai] is what the call
    to the text-generation service gives. *)
Definition reviews_summary (propertyId : Id) (ai : AiResult) (st : Server) : Reply string :=
  let found := List.filter (λ r, str_eq (r_property_id r) propertyId) (reviews (db st)) in
  if (List.length found <? 2)%nat
  then Sent 200 "Not enough reviews to generate a summary."
  else if negb (from_option truthy false GEMINI_API_KEY)
  then Refused (reply 500 "AI service is not configured.")
  else
    match ai with
    | AiError => Refused (reply 500 "Server error generating summary.")
    | AiAnswer (Some summary) =>
        if truthy summary then Sent 200 summary
        else Refused (reply 500 "Could not generate summary.")
    | AiAnswer None => Refused (reply 500 "Could not generate summary.")
    end.

(** [GET /api/dashboard/stats]: the four totals of the summary and the view
    count of each property. *)
Record DashboardStats := {
  totalProperties : nat;
  totalViews : nat;
  totalFavorites : nat;
  totalConversations : nat;
  propertyStats : list (Id * string * nat) }.

Definition countDocuments {A} (P : A → bool) (l : list A) : nat :=
  List.length (List.filter P l).

Definition dashboard_stats (authorization : option string) (st : Server)
    : Reply DashboardStats :=
  match authenticateToken jwt_verify authorization with
  | inl r => Refused r
  | inr req_user =>
      if negb (str_eq (userType req_user) "landlord")
      then Refused (reply 403 "Access denied.")
      else
        let d := db st in
        let found := List.filter (λ p, str_eq (landlord_id p) (userId req_user))
                       (properties d) in
        let propertyIds := List.map p_id found in
        Sent 200
          {| totalProperties := List.length found;
             totalViews :=
               countDocuments (λ v, id_in propertyIds (v_property_id v)) (views d);
             totalFavorites :=
               countDocuments (λ f, id_in propertyIds (f_property_id f)) (favorites d);
             totalConversations :=
               countDocuments (λ c, str_eq (c_landlord_id c) (userId req_user))
                 (conversations d);
             propertyStats :=
               List.map (λ prop,
                 (p_id prop, title prop,
                  countDocuments (λ v, str_eq (v_property_id v) (p_id prop)) (views d)))
                 found |}
  end.

(** [GET /api/notifications]: the twenty newest of the caller. *)
Definition get_notifications (authorization : option string) (st : Server)
    : Reply (list Notification) :=
  match authenticateToken jwt_verify authorization with
  | inl r => Refused r
  | inr req_user =>
      Sent 200 (take 20 (rev (List.filter (λ n, str_eq (recipient_id n) (userId req_user))
                                (notifications (db st)))))
  end.

(** [PUT /api/notifications/mark-read]. *)
Definition mark_read (authorization : option string) : Server → Response * Server :=
  authenticated jwt_verify authorization (λ req_user st,
    (reply 200 "All notifications marked as read.",
     set_db (set_notifications
               (updateMany (λ n, str_eq (recipient_id n) (userId req_user)
                                 && negb (isRead n))
                  (set_isRead true) (notifications (db st)))
               (db st)) st)).

(** [POST /api/conversations/:id/ask-ai]; [ai] is what the call to the
    text-generation service gives, [oid] the ObjectId of the bot's message. *)
Definition ask_ai (authorization : option string) (id : Id) (question : string)
    (ai : AiResult) (oid : Id) : Server → Response * Server :=
  authenticated jwt_verify authorization (λ req_user st,
    if negb (truthy question) then (reply 400 "A question is required.", st)
    else if negb (from_option truthy false GEMINI_API_KEY)
    then (reply 500 "AI service is not configured.", st)
    else
      match findById c_id id (conversations (db st)) with
      | None => (reply 404 "Conversation not found.", st)
      | Some conversation =>
          match findById p_id (c_property_id conversation) (properties (db st)) with
          | None => (reply 404 "Property not found for this conversation.", st)
          | Some property =>
              match ai with
              | AiError => (reply 500 "Server error processing AI request.", st)
              | AiAnswer None => (reply 500 "Could not get an answer from AI.", st)
              | AiAnswer (Some answer) =>
                  if truthy answer then
                    let botMessage :=
                      {| m_id := oid; conversation_id := id;
                         sender_id := c_landlord_id conversation; content := answer |} in
                    match Message_save botMessage (db st) with
                    | inl _ => (reply 500 "Server error processing AI request.", st)
                    | inr d =>
                        (reply 200 "AI response sent.",
                         send_all [student_id conversation; c_landlord_id conversation]
                           (NewMessage botMessage) (set_db d st))
                    end
                  else (reply 500 "Could not get an answer from AI.", st)
              end
          end
      end).

(** [GET /api/admin/verifications]; the route has no middleware. *)
Definition admin_verifications (st : Server) : list User :=
  List.filter (λ u, match verificationStatus u with VPending => true | _ => false end)
    (users (db st)).

(** The requests of the routes of this section that write. *)
Inductive Request2 :=
| PostView (propertyId vid : Id)
| DeleteFavorite (authorization : option string) (propertyId : Id)
| PostConversations (authorization : option string) (property_id landlord_id cid : Id)
| PutMarkRead (authorization : option string)
| PostAskAi (authorization : option string) (id : Id) (question : string)
    (ai : AiResult) (oid : Id).

Definition handle2 (r : Request2) (st : Server) : Server :=
  match r with
  | PostView pid vid => (post_view pid vid st).2
  | DeleteFavorite h pid => (delete_favorite h pid st).2
  | PostConversations h pid lid cid => (post_conversations h pid lid cid st).2
  | PutMarkRead h => (mark_read h st).2
  | PostAskAi h id q ai oid => (ask_ai h id q ai oid st).2
  end.

(** Everything that can happen to the server: a request, a socket event, or
    the reply timer. *)
Inductive Event :=
| Http (r : Request)
| Http2 (r : Request2)
| Connection (c : ConnId)
| Frame (c : ConnId) (f : ClientFrame) (oid : Id)
| Close (c : ConnId)
| Tick (oid : Id).

Definition step (e : Event) (st : Server) : Server :=
  match e with
  | Http r =>
      (handle jwt_verify jwt_sign bcrypt_hash bcrypt_compare
         String_toLowerCase String_trim r st).2
  | Http2 r => handle2 r st
  | Connection c => on_connection c st
  | Frame c f oid => on_message jwt_verify c f oid st
  | Close c => on_close c st
  | Tick oid => on_timer oid st
  end.

(** A run of events, oldest first. *)
Definition run (es : list Event) (st : Server) : Server :=
  fold_left (λ s e, step e s) es st.

End Routes.

(** ** Loading the module

    [server.js] is a script: its top-level statements run in order when the
    process starts.  A statement evaluates the identifiers it mentions outside
    function bodies; one that is not bound yet throws a ReferenceError, which
    nothing catches, and the process dies.  Only the statements that bind a
    name, register a route or can end the process are listed. *)

Module Boot.

Inductive Stmt :=
| Const (line : nat) (names : list string) (uses : list string)
| Expr (line : nat) (uses : list string)
| ConnectDB (line : nat)
| Route (line : nat) (verb path : string) (middleware : list string)
| Listen (line : nat).

Inductive Outcome :=
| Listening
| Exited (line : nat) (code : nat)
| ReferenceError (line : nat) (name : string).

Record Process := {
  bound : list string;
  routes : list (string * string * list string);
  outcome : option Outcome }.

(** The identifiers Node binds before the script runs. *)
Definition globals : list string := ["require"; "process"; "console"; "Map"].

Definition lookup_all (line : nat) (uses : list string) (env : list string) : option Outcome :=
  match List.find (λ x, negb (existsb (str_eq x) env)) uses with
  | Some x => Some (ReferenceError line x)
  | None => None
  end.

(** One statement; [mongo_uri] tells whether [process.env.MONGO_URI] is set. *)
Definition step (mongo_uri : bool) (s : Stmt) (p : Process) : Process :=
  match s with
  | Const line names uses =>
      match lookup_all line uses (bound p) with
      | Some o => {| bound := bound p; routes := routes p; outcome := Some o |}
      | None => {| bound := bound p ++ names; routes := routes p; outcome := None |}
      end
  | Expr line uses =>
      {| bound := bound p; routes := routes p; outcome := lookup_all line uses (bound p) |}
  | ConnectDB line =>
      match lookup_all line ["connectDB"] (bound p) with
      | Some o => {| bound := bound p; routes := routes p; outcome := Some o |}
      | None =>
          {| bound := bound p; routes := routes p;
             outcome := if mongo_uri then None else Some (Exited line 1) |}
      end
  | Route line verb path middleware =>
      match lookup_all line ("app" :: middleware) (bound p) with
      | Some o => {| bound := bound p; routes := routes p; outcome := Some o |}
      | None =>
          {| bound := bound p; routes := routes p ++ [(verb, path, middleware)];
             outcome := None |}
      end
  | Listen line =>
      match lookup_all line ["server"] (bound p) with
      | Some o => {| bound := bound p; routes := routes p; outcome := Some o |}
      | None => {| bound := bound p; routes := routes p; outcome := Some Listening |}
      end
  end.

Fixpoint run (mongo_uri : bool) (script : list Stmt) (p : Process) : Process :=
  match script with
  | [] => p
  | s :: rest =>
      let p' := step mongo_uri s p in
      match outcome p' with
      | Some _ => p'
      | None => run mongo_uri rest p'
      end
  end.

Definition auth : list string := ["authenticateToken"].

Definition server_js : list Stmt := [
  Expr 1 ["require"];
  Const 2 ["express"] ["require"];
  Const 3 ["http"] ["require"];
  Const 4 ["WebSocketServer"] ["require"];
  Const 5 ["bodyParser"] ["require"];
  Const 6 ["cors"] ["require"];
  Const 7 ["bcrypt"] ["require"];
  Const 8 ["jwt"] ["require"];
  Const 9 ["multer"] ["require"];
  Const 10 ["cloudinary"] ["require"];
  Const 11 ["mongoose"] ["require"];
  Const 12 ["fetch"] ["require"];
  Const 15 ["connectDB"] [];
  Const 29 ["app"] ["express"];
  ConnectDB 30;
  Const 32 ["PORT"] ["process"];
  Const 33 ["JWT_SECRET"] ["process"];
  Const 34 ["GEMINI_API_KEY"] ["process"];
  Const 36 ["server"] ["http"; "app"];
  Const 37 ["wss"] ["WebSocketServer"; "server"];
  Const 40 ["ApplicationSchema"] ["mongoose"];
  Const 48 ["Application"] ["mongoose"; "ApplicationSchema"];
  Const 51 ["UserSchema"] ["mongoose"];
  Const 84 ["PropertySchema"] ["mongoose"];
  Const 102 ["FavoriteSchema"] ["mongoose"];
  Expr 103 ["FavoriteSchema"];
  Const 104 ["ConversationSchema"] ["mongoose"];
  Const 105 ["MessageSchema"] ["mongoose"];
  Const 106 ["PropertyViewSchema"] ["mongoose"];
  Const 107 ["NotificationSchema"] ["mongoose"];
  Const 108 ["ReviewSchema"] ["mongoose"];
  Expr 114 ["ReviewSchema"];
  Const 117 ["User"] ["mongoose"; "UserSchema"];
  Const 118 ["Property"] ["mongoose"; "PropertySchema"];
  Const 119 ["Favorite"] ["mongoose"; "FavoriteSchema"];
  Const 120 ["Conversation"] ["mongoose"; "ConversationSchema"];
  Const 121 ["Message"] ["mongoose"; "MessageSchema"];
  Const 122 ["PropertyView"] ["mongoose"; "PropertyViewSchema"];
  Const 123 ["Notification"] ["mongoose"; "NotificationSchema"];
  Const 124 ["Review"] ["mongoose"; "ReviewSchema"];
  Expr 127 ["cloudinary"; "process"];
  Const 128 ["storage"] ["multer"];
  Const 129 ["upload"] ["multer"; "storage"];
  Const 132 ["corsOptions"] [];
  Expr 139 ["app"; "cors"; "corsOptions"];
  Expr 142 ["app"; "bodyParser"];
  Expr 143 ["app"; "bodyParser"];
  Expr 145 ["app"; "express"];
  Expr 146 ["app"; "express"];
  Const 148 ["authenticateToken"] [];
  Const 160 ["clients"] ["Map"];
  Expr 161 ["wss"];
  Route 221 "POST" "/api/signup" [];
  Route 242 "POST" "/api/upload-verification" [];
  Route 275 "POST" "/api/login" [];
  Route 288 "GET" "/api/properties" [];
  Route 351 "GET" "/api/properties/featured" [];
  Route 376 "GET" "/api/properties/cities" [];
  Route 385 "GET" "/api/properties/:id" [];
  Route 395 "POST" "/api/properties" ["authenticateToken"; "upload"];
  Route 435 "PUT" "/api/properties/:id" auth;
  Route 449 "DELETE" "/api/properties/:id" auth;
  Route 462 "POST" "/api/properties/:propertyId/view" [];
  Route 471 "GET" "/api/favorites" auth;
  Route 485 "POST" "/api/favorites" auth;
  Route 513 "DELETE" "/api/favorites/:propertyId" auth;
  Route 522 "GET" "/api/conversations" auth;
  Route 534 "POST" "/api/conversations" auth;
  Route 552 "GET" "/api/conversations/:id/messages" auth;
  Route 564 "GET" "/api/properties/:propertyId/reviews" [];
  Route 575 "POST" "/api/properties/:propertyId/reviews" auth;
  Route 607 "GET" "/api/properties/:propertyId/reviews/summary" [];
  Route 654 "GET" "/api/profile/stats" auth;
  Route 675 "POST" "/api/profile/change-password" auth;
  Route 704 "PUT" "/api/profile/update-username" auth;
  Route 735 "PUT" "/api/profile/upload-picture" ["authenticateToken"; "upload"];
  Route 763 "PUT" "/api/profile/update-bio" auth;
  Route 780 "POST" "/api/profile/delete-account" auth;
  Route 818 "GET" "/api/dashboard/stats" auth;
  Route 847 "GET" "/api/notifications" auth;
  Route 858 "PUT" "/api/notifications/mark-read" auth;
  Route 868 "POST" "/api/properties/generate-description" auth;
  Route 919 "POST" "/api/conversations/:id/ask-ai" auth;
  Route 1012 "GET" "/api/admin/verifications" [];
  Route 1023 "POST" "/api/admin/verify-action" [];
  Route 1049 "POST" "/api/applications" ["requireAuth"];
  Route 1071 "GET" "/api/applications/student" ["requireAuth"];
  Route 1083 "GET" "/api/applications/landlord" ["requireAuth"];
  Route 1095 "POST" "/api/applications/:id/status" ["requireAuth"];
  Listen 1109 ].

(** The names the script declares anywhere at its top level. *)
Definition declared (script : list Stmt) : list string :=
  flat_map (λ s, match s with Const _ names _ => names | _ => [] end) script.

(** The middleware names a route of the script mentions for a path. *)
Definition middleware_of (verb path : string) (script : list Stmt) : list (list string) :=
  flat_map (λ s, match s with
                 | Route _ v p mw => if str_eq v verb && str_eq p path then [mw] else []
                 | _ => []
                 end) script.

Definition boot (mongo_uri : bool) : Process :=
  run mongo_uri server_js {| bound := globals; routes := []; outcome := None |}.

(** A request reaches a handler only in a process that listens, through a
    route that was registered. *)
Definition has_route (verb path : string) (p : Process) : bool :=
  existsb (λ r, str_eq (fst (fst r)) verb && str_eq (snd (fst r)) path) (routes p).

Definition registered (verb path : string) (p : Process) : bool :=
  match outcome p with
  | Some Listening => has_route verb path p
  | _ => false
  end.

Definition application_routes : list (string * string) :=
  [("POST", "/api/applications"); ("GET", "/api/applications/student");
   ("GET", "/api/applications/landlord"); ("POST", "/api/applications/:id/status")].

End Boot.

(** ** A small deployment

    Concrete tokens, users and documents on which the handlers can be run. *)

Module Demo.

Definition verify (token : string) : option JwtPayload :=
  if str_eq token "tok-sam"
  then Some {| userId := "s1"; jwt_username := "sam"; userType := "student" |}
  else if str_eq token "tok-lea"
  then Some {| userId := "l1"; jwt_username := "lea"; userType := "landlord" |}
  else if str_eq token "tok-lou"
  then Some {| userId := "l2"; jwt_username := "lou"; userType := "landlord" |}
  else None.

Definition sign (p : JwtPayload) : string := "tok-" ++ jwt_username p.

(** The names and e-mails of the deployment are ASCII strings, on which
    JavaScript lower-cases and trims as [toLowerCase] and [trim] do. *)
Definition lower : string → string := toLowerCase.
Definition strip : string → string := trim.
Definition hash (pw : string) : string := "bcrypt:" ++ pw.
Definition compare (pw h : string) : bool := str_eq (hash pw) h.

Definition account (id name type : string) : User :=
  {| u_id := id; username := name; email := name ++ "@example.org";
     password := hash ("pw-" ++ name); user_type := type;
     profilePictureUrl := ""; bio := ""; isVerified := false;
     verificationStatus := VNone; verificationDocument := "" |}.

Definition sam : User := account "s1" "sam" "student".
Definition lea : User := account "l1" "lea" "landlord".
Definition lou : User := account "l2" "lou" "landlord".

Definition flat (id owner : Id) : Property :=
  {| p_id := id; landlord_id := owner; title := "Flat"; description := None;
     address := "1 Main St"; city := "Pune"; price := 9000; property_type := "apartment";
     bedrooms := Some 2%Z; bathrooms := None; amenities := None; image_url := "";
     images := []; lat := None; lng := None; virtual_tour_url := "" |}.

Definition thread : Conversation :=
  {| c_id := "c1"; c_property_id := "p1"; student_id := "s1"; c_landlord_id := "l1" |}.

Definition store : Db :=
  {| users := [sam; lea; lou];
     properties := [flat "p1" "l1"; flat "p2" "l2"; flat "p3" "l1"];
     favorites := [{| f_id := "f1"; f_user_id := "s1"; f_property_id := "p1" |};
                   {| f_id := "f2"; f_user_id := "s1"; f_property_id := "p2" |}];
     conversations := [thread];
     messages := [];
     views := [{| v_id := "v1"; v_property_id := "p3" |};
               {| v_id := "v2"; v_property_id := "p2" |}];
     notifications := [];
     reviews := [{| r_id := "r1"; r_property_id := "p1"; r_user_id := "s1";
                    rating := 4; comment := "Bright and quiet." |}] |}.

Definition idle (uid : string) (type : string) : Socket :=
  {| ws_userId := Some uid; ws_userType := Some type; readyState := OPEN |}.

Definition fresh : Socket :=
  {| ws_userId := None; ws_userType := None; readyState := OPEN |}.

(** Sam is connected on socket 0, Lea on socket 1; sockets 2 and 3 have not
    authenticated yet. *)
Definition server : Server :=
  {| db := store;
     clients := <["l1" := 1%nat]> (<["s1" := 0%nat]> ∅);
     sockets := <[3%nat := fresh]> (<[2%nat := fresh]>
                  (<[1%nat := idle "l1" "landlord"]> (<[0%nat := idle "s1" "student"]> ∅)));
     outbox := [];
     timers := [] |}.

Definition listing : PropertyFields :=
  {| pf_landlord_id := None; pf_title := Some "Studio"; pf_description := None;
     pf_address := Some "2 Side St"; pf_city := Some "Pune"; pf_price := Some 7000%Z;
     pf_property_type := Some "room"; pf_bedrooms := None; pf_bathrooms := None;
     pf_amenities := None; pf_image_url := None; pf_images := None;
     pf_lat := None; pf_lng := None; pf_virtual_tour_url := None |}.

Definition no_fields : PropertyFields :=
  {| pf_landlord_id := None; pf_title := None; pf_description := None;
     pf_address := None; pf_city := None; pf_price := None;
     pf_property_type := None; pf_bedrooms := None; pf_bathrooms := None;
     pf_amenities := None; pf_image_url := None; pf_images := None;
     pf_lat := None; pf_lng := None; pf_virtual_tour_url := None |}.

End Demo.

(** More of the deployment: a configured API key, an edit that names another
    landlord, and the state after Sam has favorited Lea's property p3. *)
Module Sample.

Definition api_key : option string := Some "key".

Definition handover : PropertyFields :=
  {| pf_landlord_id := Some "l2"; pf_title := None; pf_description := None;
     pf_address := None; pf_city := None; pf_price := None;
     pf_property_type := None; pf_bedrooms := None; pf_bathrooms := None;
     pf_amenities := None; pf_image_url := None; pf_images := None;
     pf_lat := None; pf_lng := None; pf_virtual_tour_url := None |}.

Definition sam_token : JwtPayload :=
  {| userId := "s1"; jwt_username := "sam"; userType := "student" |}.
Definition lea_token : JwtPayload :=
  {| userId := "l1"; jwt_username := "lea"; userType := "landlord" |}.
Definition lou_token : JwtPayload :=
  {| userId := "l2"; jwt_username := "lou"; userType := "landlord" |}.

Definition notified : Server :=
  (post_favorites Demo.verify (Some "Bearer tok-sam") (Some "p3") "f3" "n1" Demo.server).2.

End Sample.

(** ** Store invariants *)

(** At most one review for a (property, user) pair. *)
Definition unique_reviews (d : Db) : Prop :=
  NoDup (List.map (λ r, (r_property_id r, r_user_id r)) (reviews d)).

(** At most one favorite for a (user, property) pair. *)
Definition unique_favorites (d : Db) : Prop :=
  NoDup (List.map (λ f, (f_user_id f, f_property_id f)) (favorites d)).

(** Document ids are unique in the user collection. *)
Definition unique_user_ids (d : Db) : Prop := NoDup (List.map u_id (users d)).

(** At most one conversation for a (property, student) pair. *)
Definition unique_conversations (d : Db) : Prop :=
  NoDup (List.map (λ c, (c_property_id c, student_id c)) (conversations d)).

(** Document ids are unique in the property and conversation collections. *)
Definition unique_property_ids (d : Db) : Prop := NoDup (List.map p_id (properties d)).
Definition unique_conversation_ids (d : Db) : Prop :=
  NoDup (List.map c_id (conversations d)).

(** No two users share a user name. *)
Definition unique_usernames (d : Db) : Prop := NoDup (List.map username (users d)).

(** Every stored review passed the schema's validators. *)
Definition valid_review (r : Review) : Prop :=
  (1 ≤ rating r ≤ 5)%Z ∧ comment r ≠ "" ∧ (js_length (comment r) ≤ 1000)%nat.

(** The routes registered behind [authenticateToken]. *)
Definition protected (r : Request) : bool :=
  match r with
  | PostSignup _ _ _ _ _ _ | PostUploadVerification _ _ _ | PostVerifyAction _ _ _ => false
  | _ => true
  end.

(** The character that separates the words of an [Authorization] header. *)
Fixpoint has_space (s : string) : bool :=
  match s with
  | EmptyString => false
  | String c s' => bool_decide (c = " "%char) || has_space s'
  end.

(** * Properties *)

(** ** Helper lemmas *)

Lemma str_eq_true (a b : string) : str_eq a b = true ↔ a = b.
Proof. unfold str_eq. apply bool_decide_eq_true. Qed.

Lemma str_eq_false (a b : string) : str_eq a b = false ↔ a ≠ b.
Proof. unfold str_eq. apply bool_decide_eq_false. Qed.

Lemma str_eq_refl (a : string) : str_eq a a = true.
Proof. by apply str_eq_true. Qed.

Lemma truthy_nonempty (s : string) : truthy s = true ↔ s ≠ "".
Proof. destruct s; simpl; split; intros; congruence. Qed.

Lemma filter_none {A} (P : A → Prop) `{!∀ x, Decision (P x)} (l : list A) :
  (∀ x, x ∈ l → ¬ P x) → filter P l = [].
Proof.
  intros Hl. destruct (filter P l) as [|x l'] eqn:Hf; [done|].
  assert (x ∈ filter P l) as [HP Hin]%list_elem_of_filter by (rewrite Hf; left).
  by destruct (Hl x Hin).
Qed.

(** The registry holds, for a user id, exactly what [get] returns. *)
Lemma tracked_get (uid : string) (m : gmap string ConnId) :
  tracked uid m = match get uid m with Some c => [(uid, c)] | None => [] end.
Proof.
  unfold tracked, get. destruct (m !! uid) as [c|] eqn:Hm.
  - rewrite <- (insert_delete_id m uid c Hm) at 1.
    apply Permutation_singleton_r.
    rewrite map_to_list_insert by apply lookup_delete_eq.
    rewrite filter_cons_True by done.
    apply Permutation_skip. rewrite filter_none; [done|].
    intros [k v] Hin Hk. simpl in Hk. subst k.
    apply elem_of_map_to_list in Hin. by rewrite lookup_delete_eq in Hin.
  - apply filter_none. intros [k v] Hin Hk. simpl in Hk. subst k.
    apply elem_of_map_to_list in Hin. congruence.
Qed.

Lemma open_client_spec (st : Server) (id : string) (k : ConnId) :
  open_client st id = Some k ↔
  get id (clients st) = Some k ∧ ∃ s, sockets st !! k = Some s ∧ readyState s = OPEN.
Proof.
  unfold open_client. destruct (get id (clients st)) as [c|]; simpl; [|split; [done|by intros [? _]]].
  destruct (sockets st !! c) as [s|] eqn:Hs; simpl.
  - case_decide; split.
    + intros Hk. injection Hk as <-. eauto.
    + intros [Hk _]. by injection Hk as <-.
    + done.
    + intros [Hk (s' & Hs' & Hopen)]. injection Hk as <-. congruence.
  - split; [done|]. intros [Hk (s' & Hs' & _)]. injection Hk as <-. congruence.
Qed.



(** ** The relay and the connection registry *)

Section RelayProperties.

Context (jwt_verify : string → option JwtPayload).

(** A verified [auth] frame registers the socket under the token's user. *)
Lemma on_auth_registers (c : ConnId) (token : string) (user : JwtPayload) (oid : Id)
    (st : Server) (s : Socket) :
  sockets st !! c = Some s → truthy token = true → jwt_verify token = Some user →
  let st' := on_message jwt_verify c (AuthFrame token) oid st in
  clients st' = register (userId user) c (clients st) ∧
  sockets st' = <[c := {| ws_userId := Some (userId user);
                          ws_userType := Some (userType user);
                          readyState := readyState s |}]> (sockets st) ∧
  db st' = db st ∧ outbox st' = outbox st.
Proof.
  intros Hs Htok Hv. unfold on_message, on_auth. rewrite Hs, Htok, Hv. simpl.
  split_and!; try done.
  apply map_eq. intros k. rewrite lookup_alter.
  destruct (decide (c = k)) as [->|Hne].
  - by rewrite lookup_insert_eq, Hs.
  - by rewrite lookup_insert_ne.
Qed.


(** The registry itself: a registration is retrievable, and a second one for
    the same id overwrites the first. *)
Lemma get_register (uid : string) (c : ConnId) (m : gmap string ConnId) :
  get uid (register uid c m) = Some c.
Proof. unfold register, get. apply lookup_insert_eq. Qed.

Lemma register_twice (uid : string) (a b : ConnId) (m : gmap string ConnId) :
  register uid b (register uid a m) = register uid b m.
Proof. unfold register. apply insert_insert_eq. Qed.

(** C2: two sockets send auth frames whose tokens verify for the same user
    id, first [a], then [b].  After the first frame the registry returns [a]
    for the id; after the second it returns [b] and nothing else, it holds a
    single entry for the id, and it is the registry that the second frame
    alone would have produced.  The replacement is silent: socket [a] keeps
    its ready state, and nothing is sent or stored. *)
Theorem C2_second_registration_replaces (a b : ConnId) (sa sb : Socket)
    (ta tb : string) (ua ub : JwtPayload) (o1 o2 : Id) (st : Server) :
  sockets st !! a = Some sa → sockets st !! b = Some sb →
  ta ≠ "" → tb ≠ "" →
  jwt_verify ta = Some ua → jwt_verify tb = Some ub →
  userId ua = userId ub →
  let uid := userId ua in
  let st1 := on_message jwt_verify a (AuthFrame ta) o1 st in
  let st2 := on_message jwt_verify b (AuthFrame tb) o2 st1 in
  get uid (clients st1) = Some a ∧
  get uid (clients st2) = Some b ∧
  (∀ c, get uid (clients st2) = Some c → c = b) ∧
  tracked uid (clients st2) = [(uid, b)] ∧
  clients st2 = register uid b (clients st) ∧
  (∃ sa', sockets st2 !! a = Some sa' ∧ readyState sa' = readyState sa) ∧
  outbox st2 = outbox st ∧ db st2 = db st.
Proof.
  intros Ha Hb Hta Htb Hva Hvb Hsame uid st1 st2.
  apply truthy_nonempty in Hta, Htb.
  destruct (on_auth_registers a ta ua o1 st sa Ha Hta Hva) as (Hc1 & Hs1 & Hd1 & Ho1).
  fold st1 in Hc1, Hs1, Hd1, Ho1.
  assert (∃ sb1, sockets st1 !! b = Some sb1 ∧
                 (a = b → readyState sb1 = readyState sa)) as (sb1 & Hb1 & Hready).
  { rewrite Hs1. destruct (decide (a = b)) as [->|Hne].
    - eexists. split; [apply lookup_insert_eq|done].
    - exists sb. split; [by rewrite lookup_insert_ne|done]. }
  destruct (on_auth_registers b tb ub o2 st1 sb1 Hb1 Htb Hvb) as (Hc2 & Hs2 & Hd2 & Ho2).
  fold st2 in Hc2, Hs2, Hd2, Ho2.
  assert (get uid (clients st2) = Some b) as Hget.
  { rewrite Hc2, <- Hsame. apply get_register. }
  split_and!.
  - rewrite Hc1. apply get_register.
  - exact Hget.
  - intros c Hc. congruence.
  - by rewrite tracked_get, Hget.
  - rewrite Hc2, Hc1, <- Hsame. apply register_twice.
  - rewrite Hs2. destruct (decide (a = b)) as [->|Hne].
    + eexists. split; [apply lookup_insert_eq|]. simpl. by apply Hready.
    + rewrite lookup_insert_ne by done. rewrite Hs1.
      eexists. split; [apply lookup_insert_eq|done].
  - by rewrite Ho2, Ho1.
  - by rewrite Hd2, Hd1.
Qed.

(** C10: socket [a] and then socket [b] authenticate as the same user; when
    [a] closes, its handler deletes the user's entry, so the registry has
    nothing for the user although [b] is open and still carries the id. *)
Theorem C10_stale_close_unregisters (a b : ConnId) (sa sb : Socket)
    (ta tb : string) (ua ub : JwtPayload) (o1 o2 : Id) (st : Server) :
  a ≠ b →
  sockets st !! a = Some sa → sockets st !! b = Some sb →
  readyState sb = OPEN →
  ta ≠ "" → tb ≠ "" →
  jwt_verify ta = Some ua → jwt_verify tb = Some ub →
  userId ua = userId ub → userId ua ≠ "" →
  let st1 := on_message jwt_verify a (AuthFrame ta) o1 st in
  let st2 := on_message jwt_verify b (AuthFrame tb) o2 st1 in
  let st3 := on_close a st2 in
  get (userId ua) (clients st2) = Some b ∧
  get (userId ua) (clients st3) = None ∧
  ∃ sb', sockets st3 !! b = Some sb' ∧ readyState sb' = OPEN ∧
         ws_userId sb' = Some (userId ua).
Proof.
  intros Hab Ha Hb Hopen Hta Htb Hva Hvb Hsame Hid st1 st2 st3.
  apply truthy_nonempty in Hta, Htb, Hid.
  destruct (on_auth_registers a ta ua o1 st sa Ha Hta Hva) as (Hc1 & Hs1 & _).
  fold st1 in Hc1, Hs1.
  assert (sockets st1 !! b = Some sb) as Hb1
    by (rewrite Hs1, lookup_insert_ne by done; exact Hb).
  destruct (on_auth_registers b tb ub o2 st1 sb Hb1 Htb Hvb) as (Hc2 & Hs2 & _).
  fold st2 in Hc2, Hs2.
  assert (sockets st2 !! a = Some {| ws_userId := Some (userId ua);
                                     ws_userType := Some (userType ua);
                                     readyState := readyState sa |}) as Ha2.
  { rewrite Hs2, lookup_insert_ne by done. rewrite Hs1. apply lookup_insert_eq. }
  split_and!.
  - rewrite Hc2, Hsame. unfold get, register. apply lookup_insert_eq.
  - subst st3. unfold on_close. rewrite Ha2. simpl. rewrite Hid. simpl.
    unfold get, unregister. apply lookup_delete_eq.
  - exists {| ws_userId := Some (userId ub); ws_userType := Some (userType ub);
              readyState := readyState sb |}.
    split_and!; [|done|by rewrite Hsame].
    subst st3. unfold on_close. rewrite Ha2. simpl. rewrite Hid. simpl.
    rewrite lookup_insert_ne by done. rewrite Hs2. apply lookup_insert_eq.
Qed.

End RelayProperties.

(** ** The REST handlers *)

Lemma id_in_spec (ids : list Id) (id : Id) : id_in ids id = true ↔ id ∈ ids.
Proof.
  unfold id_in. rewrite existsb_exists, list_elem_of_In. split.
  - intros (x & Hin & Heq). apply str_eq_true in Heq. by subst.
  - intros Hin. exists id. split; [done|apply str_eq_refl].
Qed.

Lemma deleteMany_spec {A} (P : A → bool) (l : list A) (x : A) :
  x ∈ deleteMany P l ↔ x ∈ l ∧ P x = false.
Proof.
  unfold deleteMany. rewrite !list_elem_of_In, filter_In.
  by rewrite negb_true_iff.
Qed.

Lemma findById_Some {A} (key : A → Id) (id : Id) (l : list A) (x : A) :
  findById key id l = Some x → x ∈ l ∧ key x = id.
Proof.
  unfold findById. intros H. apply find_some in H as [Hin Heq].
  split; [by apply list_elem_of_In|by apply str_eq_true].
Qed.

Lemma findById_app {A} (key : A → Id) (id : Id) (l l2 : list A) (x : A) :
  findById key id l = Some x → findById key id (l ++ l2) = Some x.
Proof.
  unfold findById. induction l as [|y l IH]; simpl; [done|].
  destruct (str_eq (key y) id); [done|exact IH].
Qed.

Lemma findById_update_first {A} (key : A → Id) (f : A → A) (id id0 : Id) (l : list A) :
  (∀ x, key (f x) = key x) →
  findById key id (update_first (λ x, str_eq (key x) id0) f l) =
  if str_eq id id0 then f <$> findById key id l else findById key id l.
Proof.
  intros Hkey. unfold findById.
  induction l as [|y l IH]; simpl; [by destruct (str_eq id id0)|].
  destruct (str_eq (key y) id0) eqn:E0; simpl.
  - rewrite Hkey. apply str_eq_true in E0.
    destruct (str_eq (key y) id) eqn:E.
    + apply str_eq_true in E. subst. by rewrite str_eq_refl.
    + destruct (str_eq id id0) eqn:E1; [|done].
      apply str_eq_true in E1. apply str_eq_false in E. congruence.
  - destruct (str_eq (key y) id) eqn:E; [|exact IH].
    apply str_eq_true in E. apply str_eq_false in E0.
    destruct (str_eq id id0) eqn:E1; [|done].
    apply str_eq_true in E1. congruence.
Qed.

Lemma findById_delete_first {A} (key : A → Id) (id id0 : Id) (l : list A) :
  NoDup (List.map key l) →
  findById key id (delete_first (λ x, str_eq (key x) id0) l) =
  if str_eq id id0 then None else findById key id l.
Proof.
  unfold findById. induction l as [|y l IH]; simpl; intros Hnd.
  - by destruct (str_eq id id0).
  - apply NoDup_cons in Hnd as [Hy Hnd]. specialize (IH Hnd).
    destruct (str_eq (key y) id0) eqn:E0; simpl.
    + apply str_eq_true in E0.
      destruct (str_eq id id0) eqn:E1.
      * apply str_eq_true in E1. subst id0.
        destruct (List.find (λ d, str_eq (key d) id) l) as [z|] eqn:Hz; [|done].
        apply find_some in Hz as [Hin Hk]. apply str_eq_true in Hk.
        exfalso. apply Hy. assert (key y = key z) as -> by congruence.
        by apply list_elem_of_In, in_map.
      * apply str_eq_false in E1.
        destruct (str_eq (key y) id) eqn:E; [|done].
        apply str_eq_true in E. congruence.
    + destruct (str_eq (key y) id) eqn:E; [|exact IH].
      apply str_eq_true in E. apply str_eq_false in E0.
      destruct (str_eq id id0) eqn:E1; [|done].
      apply str_eq_true in E1. congruence.
Qed.

Lemma NoDup_snoc_fresh {A B} `{EqDecision B} (key : A → B) (same : A → A → bool)
    (l : list A) (x : A) :
  (∀ y, same x y = false → key y ≠ key x) →
  NoDup (List.map key l) → existsb (same x) l = false →
  NoDup (List.map key (l ++ [x])).
Proof.
  intros Hsame Hnd Hex. rewrite map_app. simpl.
  apply NoDup_app. split_and!; [done| |apply NoDup_singleton].
  intros k Hk Hk'. apply list_elem_of_singleton in Hk'. subst k.
  apply list_elem_of_In, in_map_iff in Hk as (y & Hy & Hin).
  assert (same x y = false) as Hf.
  { destruct (same x y) eqn:E; [|done].
    assert (existsb (same x) l = true) by (apply existsb_exists; eauto). congruence. }
  by apply Hsame in Hf.
Qed.

Section RestProperties.

Context (jwt_verify : string → option JwtPayload)
        (jwt_sign : JwtPayload → string)
        (bcrypt_hash : string → string)
        (bcrypt_compare : string → string → bool)
        (String_toLowerCase String_trim : string → string).

(** C5: on a stored property, a caller whose token verifies and whose user
    id is not the property's [landlord_id] gets 403 from both the edit and
    the delete route and the state is untouched; either route answers 200
    only to a verified caller whose id is the [landlord_id]; and it does
    answer 200 to that caller. *)
Theorem C5_only_owner_edits_or_deletes (authorization : option string) (id : Id)
    (b : PropertyFields) (property : Property) (st : Server) :
  findById p_id id (properties (db st)) = Some property →
  let edit := put_property jwt_verify authorization id b st in
  let remove := delete_property jwt_verify authorization id st in
  (∀ req_user, authenticateToken jwt_verify authorization = inr req_user →
     userId req_user ≠ landlord_id property →
     edit = (reply 403 "User not authorized", st) ∧
     remove = (reply 403 "User not authorized", st)) ∧
  (status edit.1 = 200%nat ∨ status remove.1 = 200%nat →
     ∃ req_user, authenticateToken jwt_verify authorization = inr req_user ∧
                 userId req_user = landlord_id property) ∧
  (∀ req_user, authenticateToken jwt_verify authorization = inr req_user →
     userId req_user = landlord_id property →
     status edit.1 = 200%nat ∧ status remove.1 = 200%nat).
Proof.
  intros Hfind edit remove. subst edit remove.
  unfold put_property, delete_property, authenticated.
  destruct (authenticateToken jwt_verify authorization) as [r|req_user] eqn:Hauth.
  - split_and!; try (intros; discriminate).
    intros [H|H]; simpl in H; exfalso;
      unfold authenticateToken in Hauth;
      destruct (bearer authorization); [destruct (jwt_verify s)| | destruct (jwt_verify s)|];
      simplify_eq; simpl in H; discriminate.
  - rewrite Hfind.
    destruct (str_eq (landlord_id property) (userId req_user)) eqn:E; simpl.
    + apply str_eq_true in E. split_and!.
      * intros ? [= <-] Hne. congruence.
      * intros _. eauto.
      * done.
    + apply str_eq_false in E. split_and!.
      * by intros ? [= <-] _.
      * intros [H|H]; discriminate.
      * intros ? [= <-] Heq. congruence.
Qed.



Local Abbreviation handle' :=
  (handle jwt_verify jwt_sign bcrypt_hash bcrypt_compare String_toLowerCase String_trim).

Local Ltac run_handler :=
  unfold handle, signup, upload_verification, verify_action, post_properties,
    put_property, delete_property, post_favorites, post_review, change_password,
    update_username, upload_picture, update_bio, delete_account, authenticated.

Local Ltac save_inv :=
  repeat match goal with
  | H : User_save _ _ = inr _ |- _ =>
      unfold User_save in H; repeat case_match; simplify_eq
  | H : Property_save _ _ = inr _ |- _ =>
      unfold Property_save in H; repeat case_match; simplify_eq
  | H : Favorite_save _ _ = inr _ |- _ =>
      unfold Favorite_save in H; repeat case_match; simplify_eq
  | H : Notification_save _ _ = inr _ |- _ =>
      unfold Notification_save in H; repeat case_match; simplify_eq
  end.

Lemma reviews_cascade (req_user : JwtPayload) (d : Db) :
  reviews (cascade req_user d) = reviews d.
Proof. unfold cascade. by repeat case_match. Qed.

Lemma users_cascade (req_user : JwtPayload) (d : Db) :
  users (cascade req_user d) = users d.
Proof. unfold cascade. by repeat case_match. Qed.


Lemma deleteMany_sublist {A} (P : A → bool) (l : list A) : deleteMany P l `sublist_of` l.
Proof.
  unfold deleteMany. induction l as [|x l IH]; simpl; [done|].
  destruct (negb (P x)); by constructor.
Qed.

Lemma favorites_cascade (req_user : JwtPayload) (d : Db) :
  favorites (cascade req_user d) `sublist_of` favorites d.
Proof. unfold cascade. repeat case_match; simpl; auto using deleteMany_sublist. Qed.

Lemma Favorite_save_inr (f : Favorite) (d d' : Db) :
  Favorite_save f d = inr d' →
  favorites d' = (favorites d ++ [f])%list ∧ existsb (same_favorite f) (favorites d) = false.
Proof.
  unfold Favorite_save. intros H. repeat case_match; simplify_eq. by simpl.
Qed.

(** A request removes favorites, leaves them alone, or appends one for a pair
    that had none. *)
Lemma handle_favorites (r : Request) (st : Server) :
  favorites (db (handle' r st).2) `sublist_of` favorites (db st) ∨
  ∃ new, favorites (db (handle' r st).2) = (favorites (db st) ++ [new])%list ∧
         existsb (same_favorite new) (favorites (db st)) = false.
Proof.
  destruct r; run_handler; repeat case_match; simpl;
    repeat match goal with
    | H : User_save _ _ = inr _ |- _ =>
        unfold User_save in H; repeat case_match; simplify_eq
    | H : Property_save _ _ = inr _ |- _ =>
        unfold Property_save in H; repeat case_match; simplify_eq
    | H : Review_save _ _ = inr _ |- _ =>
        unfold Review_save in H; repeat case_match; simplify_eq
    | H : Notification_save _ _ = inr _ |- _ =>
        unfold Notification_save in H; repeat case_match; simplify_eq
    end; simpl; try (left; auto using favorites_cascade; done).
  all: match goal with
       | H : Favorite_save _ _ = inr _ |- _ => apply Favorite_save_inr in H as [? ?]
       end; right; eauto.
Qed.

(** Duplicates are kept out of the favorites: no request makes the store hold two
    favorites for one (user, property) pair. *)
Lemma unique_favorites_preserved (r : Request) (st : Server) :
  unique_favorites (db st) → unique_favorites (db (handle' r st).2).
Proof.
  unfold unique_favorites. intros Hnd.
  destruct (handle_favorites r st) as [Hsub|(new & -> & Hnew)].
  - eapply sublist_NoDup; [exact Hnd|]. by apply (fmap_sublist _).
  - apply (NoDup_snoc_fresh _ same_favorite); [|done..].
    intros y Hf Heq. unfold same_favorite in Hf. injection Heq as H1 H2.
    rewrite H1, H2, !str_eq_refl in Hf. discriminate.
Qed.

End RestProperties.

(** ** The handlers on the small deployment *)

(** A favorite that exists makes [save] throw the duplicate-key error, and the
    route's only [catch] answers 500 whatever was thrown. *)
Lemma post_favorites_duplicate (jwt_verify : string → option JwtPayload)
    (authorization : option string) (req_user : JwtPayload) (pid fid nid : Id)
    (existing : Favorite) (st : Server) :
  authenticateToken jwt_verify authorization = inr req_user →
  existing ∈ favorites (db st) →
  f_user_id existing = userId req_user → f_property_id existing = pid →
  post_favorites jwt_verify authorization (Some pid) fid nid st =
  (reply 500 "Error adding favorite", st).
Proof.
  intros Hauth Hin Hu Hp. unfold post_favorites, authenticated. rewrite Hauth.
  unfold Favorite_save.
  replace (existsb _ (favorites (db st))) with true; [done|].
  symmetry. apply existsb_exists. exists existing. split; [by apply list_elem_of_In|].
  unfold same_favorite. simpl. by rewrite Hu, Hp, !str_eq_refl.
Qed.

(** The read of [userType] on a user document is [undefined] for every user,
    so the comparison with ['landlord'] is false. *)
Lemma gatekeeper_never_fires (user : User) :
  js_is_str (User_get user "userType") "landlord" = false.
Proof. reflexivity. Qed.

(** C3 (the code at the failing input): Sam has favorited property p1; the
    second attempt is answered 500 with the route's generic message, not 409,
    and the state is unchanged; the review route answers the same situation
    with 409. *)
Theorem C3_duplicate_favorite_answered_500 :
  let again := post_favorites Demo.verify (Some "Bearer tok-sam") (Some "p1") "f9" "n9"
                 Demo.server in
  let review := post_review Demo.verify (Some "Bearer tok-sam") "p1" (Some 5%Z) "Again."
                  "r9" Demo.server in
  again = (reply 500 "Error adding favorite", Demo.server) ∧
  status again.1 ≠ 409%nat ∧
  review = (reply 409 "You have already reviewed this property.", Demo.server).
Proof.
  split_and!.
  - apply (post_favorites_duplicate _ _
             {| userId := "s1"; jwt_username := "sam"; userType := "student" |} _ _ _
             {| f_id := "f1"; f_user_id := "s1"; f_property_id := "p1" |});
      [reflexivity|left|reflexivity|reflexivity].
  - discriminate.
  - reflexivity.
Qed.

(** C7 (the code at the failing input): Lea is a landlord and is not
    verified; her listing is answered 201 and the property is stored. *)
Theorem C7_unverified_landlord_lists :
  let out := post_properties Demo.verify (Some "Bearer tok-lea") Demo.listing [] "p9"
               Demo.server in
  user_type Demo.lea = "landlord" ∧ isVerified Demo.lea = false ∧
  findById u_id "l1" (users (db Demo.server)) = Some Demo.lea ∧
  status out.1 = 201%nat ∧
  List.length (properties (db out.2)) = S (List.length (properties (db Demo.server))) ∧
  (landlord_id <$> findById p_id "p9" (properties (db out.2))) = Some "l1".
Proof. split_and!; reflexivity. Qed.



(** C2 on the deployment: sockets 2 and 3 authenticate as Sam one after the
    other; the registry returns socket 2 and then socket 3, with one entry
    for Sam, and socket 2 is still open. *)
Lemma C2_second_registration_replaces_witness :
  let st1 := on_message Demo.verify 2 (AuthFrame "tok-sam") "" Demo.server in
  let st2 := on_message Demo.verify 3 (AuthFrame "tok-sam") "" st1 in
  get "s1" (clients st1) = Some 2%nat ∧
  get "s1" (clients st2) = Some 3%nat ∧
  tracked "s1" (clients st2) = [("s1", 3%nat)] ∧
  (∃ sa', sockets st2 !! 2%nat = Some sa' ∧ readyState sa' = OPEN) ∧
  outbox st2 = outbox Demo.server.
Proof.
  destruct (C2_second_registration_replaces Demo.verify 2 3 Demo.fresh Demo.fresh
              "tok-sam" "tok-sam"
              {| userId := "s1"; jwt_username := "sam"; userType := "student" |}
              {| userId := "s1"; jwt_username := "sam"; userType := "student" |}
              "" "" Demo.server
              eq_refl eq_refl ltac:(discriminate) ltac:(discriminate)
              eq_refl eq_refl eq_refl)
    as (H1 & H2 & _ & H3 & _ & H4 & H5 & _).
  split_and!; assumption.
Defined.

(** C5 on the deployment: Lou is not the owner of p1 and gets 403 from both
    routes. *)
Lemma C5_only_owner_edits_or_deletes_witness :
  put_property Demo.verify (Some "Bearer tok-lou") "p1" Demo.no_fields Demo.server
  = (reply 403 "User not authorized", Demo.server) ∧
  delete_property Demo.verify (Some "Bearer tok-lou") "p1" Demo.server
  = (reply 403 "User not authorized", Demo.server).
Proof.
  destruct (C5_only_owner_edits_or_deletes Demo.verify (Some "Bearer tok-lou") "p1"
              Demo.no_fields (Demo.flat "p1" "l1") Demo.server eq_refl)
    as (Hforbidden & _ & _).
  apply (Hforbidden {| userId := "l2"; jwt_username := "lou"; userType := "landlord" |});
    [reflexivity|discriminate].
Defined.


(** C10 on the deployment: sockets 2 and 3 authenticate as Sam, socket 2
    closes, and the registry has no entry for Sam while socket 3 is open. *)
Lemma C10_stale_close_unregisters_witness :
  let st1 := on_message Demo.verify 2 (AuthFrame "tok-sam") "" Demo.server in
  let st2 := on_message Demo.verify 3 (AuthFrame "tok-sam") "" st1 in
  let st3 := on_close 2 st2 in
  get "s1" (clients st2) = Some 3%nat ∧
  get "s1" (clients st3) = None ∧
  ∃ sb', sockets st3 !! 3%nat = Some sb' ∧ readyState sb' = OPEN ∧
         ws_userId sb' = Some "s1".
Proof.
  apply (C10_stale_close_unregisters Demo.verify 2 3 Demo.fresh Demo.fresh
           "tok-sam" "tok-sam"
           {| userId := "s1"; jwt_username := "sam"; userType := "student" |}
           {| userId := "s1"; jwt_username := "sam"; userType := "student" |}
           "" "" Demo.server);
    first [reflexivity | discriminate | lia].
Defined.

(** ** Loading [server.js] *)

(** C9: the four application routes name the middleware [requireAuth]; the
    script declares no such name and Node provides none; loading the script
    stops with a ReferenceError at the first of them (line 1049), or earlier
    with exit code 1 when the database URI is missing; in both cases the
    process never listens, so no route, and none of the four, is ever
    served. *)
Theorem C9_application_routes_never_served :
  (∀ verb path, (verb, path) ∈ Boot.application_routes →
     Boot.middleware_of verb path Boot.server_js = [["requireAuth"]]) ∧
  ("requireAuth" ∉ Boot.declared Boot.server_js) ∧
  ("requireAuth" ∉ Boot.globals) ∧
  Boot.outcome (Boot.boot true) = Some (Boot.ReferenceError 1049 "requireAuth") ∧
  Boot.outcome (Boot.boot false) = Some (Boot.Exited 30 1) ∧
  (∀ mongo_uri verb path, Boot.registered verb path (Boot.boot mongo_uri) = false) ∧
  (∀ mongo_uri verb path,
     (verb, path) ∈ Boot.application_routes →
     Boot.has_route verb path (Boot.boot mongo_uri) = false).
Proof.
  assert (Boot.outcome (Boot.boot true) = Some (Boot.ReferenceError 1049 "requireAuth"))
    as Htrue by (vm_compute; reflexivity).
  assert (Boot.outcome (Boot.boot false) = Some (Boot.Exited 30 1))
    as Hfalse by (vm_compute; reflexivity).
  assert (∀ P : string → string → Prop,
            P "POST" "/api/applications" → P "GET" "/api/applications/student" →
            P "GET" "/api/applications/landlord" → P "POST" "/api/applications/:id/status" →
            ∀ verb path, (verb, path) ∈ Boot.application_routes → P verb path) as Hfour.
  { intros P H1 H2 H3 H4 verb path Hin. unfold Boot.application_routes in Hin.
    rewrite !elem_of_cons, elem_of_nil in Hin.
    destruct Hin as [Hin|[Hin|[Hin|[Hin|[]]]]]; injection Hin as -> ->; assumption. }
  split_and!; try assumption.
  - apply Hfour; vm_compute; reflexivity.
  - intros Hin%id_in_spec. vm_compute in Hin. discriminate.
  - intros Hin%id_in_spec. vm_compute in Hin. discriminate.
  - intros [] verb path; unfold Boot.registered.
    + rewrite Htrue. reflexivity.
    + rewrite Hfalse. reflexivity.
  - intros mongo_uri. apply Hfour; destruct mongo_uri; vm_compute; reflexivity.
Qed.

(** * Further properties of the socket layer *)




Section SocketProperties.

Context (jwt_verify : string → option JwtPayload).

(** X1: a socket that carries no user id ignores every frame other than an
    [auth] frame with a token: the state is unchanged. *)
Theorem unauthenticated_frames_ignored (c : ConnId) (s : Socket) (f : ClientFrame)
    (oid : Id) (st : Server) :
  sockets st !! c = Some s →
  ws_userId s = None →
  (∀ token, f = AuthFrame token → token = "") →
  on_message jwt_verify c f oid st = st.
Proof.
  intros Hs Hu Hf. unfold on_message. rewrite Hs, Hu.
  destruct f as [token| |]; try done.
  by rewrite (Hf token eq_refl).
Qed.

(** X2: an [auth] frame whose token does not verify registers nothing and
    starts closing the socket; from then on nothing is pushed to it. *)
Theorem invalid_token_closes_socket (c : ConnId) (s : Socket) (token : string)
    (oid : Id) (st : Server) :
  sockets st !! c = Some s →
  token ≠ "" →
  jwt_verify token = None →
  let st' := on_message jwt_verify c (AuthFrame token) oid st in
  clients st' = clients st ∧ db st' = db st ∧ outbox st' = outbox st ∧
  (∃ s', sockets st' !! c = Some s' ∧ ws_userId s' = ws_userId s ∧
         readyState s' ≠ OPEN) ∧
  ∀ id, open_client st' id ≠ Some c.
Proof.
  intros Hs Htok Hv st'. subst st'. apply truthy_nonempty in Htok.
  unfold on_message, on_auth, ws_close. rewrite Hs, Htok, Hv. simpl.
  split_and!; try done.
  - eexists. split; [apply lookup_insert_eq|]. split; [done|].
    simpl. by destruct (readyState s).
  - intros id Hopen. apply open_client_spec in Hopen as (_ & s' & Hs' & Hopen).
    simpl in Hs'. rewrite lookup_insert_eq in Hs'. injection Hs' as <-.
    simpl in Hopen. by destruct (readyState s).
Qed.

(** X3: a socket that authenticates a second time, as another user, stays
    registered under the first user as well; its close handler deletes the
    second entry only, so the first user's entry outlives the socket, and
    pushes to that user are skipped because the socket is closed. *)
Theorem reauth_leaves_stale_entry (c : ConnId) (s : Socket) (t1 t2 : string)
    (u1 u2 : JwtPayload) (o1 o2 : Id) (st : Server) :
  sockets st !! c = Some s →
  t1 ≠ "" → t2 ≠ "" →
  jwt_verify t1 = Some u1 → jwt_verify t2 = Some u2 →
  userId u1 ≠ userId u2 → userId u2 ≠ "" →
  let st1 := on_message jwt_verify c (AuthFrame t1) o1 st in
  let st2 := on_message jwt_verify c (AuthFrame t2) o2 st1 in
  let st3 := on_close c st2 in
  get (userId u1) (clients st2) = Some c ∧
  get (userId u2) (clients st2) = Some c ∧
  get (userId u1) (clients st3) = Some c ∧
  get (userId u2) (clients st3) = None ∧
  open_client st3 (userId u1) = None.
Proof.
  intros Hs Ht1 Ht2 Hv1 Hv2 Hne Hid st1 st2 st3.
  apply truthy_nonempty in Ht1, Ht2, Hid.
  destruct (on_auth_registers jwt_verify c t1 u1 o1 st s Hs Ht1 Hv1) as (Hc1 & Hs1 & _).
  fold st1 in Hc1, Hs1.
  assert (sockets st1 !! c = Some {| ws_userId := Some (userId u1);
                                     ws_userType := Some (userType u1);
                                     readyState := readyState s |}) as Hc
    by (rewrite Hs1; apply lookup_insert_eq).
  destruct (on_auth_registers jwt_verify c t2 u2 o2 st1 _ Hc Ht2 Hv2) as (Hc2 & Hs2 & _).
  fold st2 in Hc2, Hs2. simpl in Hs2.
  assert (sockets st2 !! c = Some {| ws_userId := Some (userId u2);
                                     ws_userType := Some (userType u2);
                                     readyState := readyState s |}) as Hc'
    by (rewrite Hs2; apply lookup_insert_eq).
  assert (clients st3 = unregister (userId u2) (clients st2)) as Hc3.
  { subst st3. unfold on_close. rewrite Hc'. simpl. by rewrite Hid. }
  assert (sockets st3 !! c = Some {| ws_userId := Some (userId u2);
                                     ws_userType := Some (userType u2);
                                     readyState := CLOSED |}) as Hs3.
  { subst st3. unfold on_close. rewrite Hc'. simpl. rewrite Hid. simpl.
    apply lookup_insert_eq. }
  assert (get (userId u1) (clients st2) = Some c) as H1.
  { rewrite Hc2, Hc1. unfold get, register.
    rewrite lookup_insert_ne by done. apply lookup_insert_eq. }
  split_and!.
  - exact H1.
  - rewrite Hc2. unfold get, register. apply lookup_insert_eq.
  - rewrite Hc3. unfold get, unregister. rewrite lookup_delete_ne by done. exact H1.
  - rewrite Hc3. unfold get, unregister. apply lookup_delete_eq.
  - destruct (open_client st3 (userId u1)) as [k|] eqn:Hopen; [|done].
    apply open_client_spec in Hopen as (Hk & s' & Hs' & Hopen).
    rewrite Hc3 in Hk. unfold get, unregister in Hk.
    rewrite lookup_delete_ne in Hk by done. unfold get in H1.
    assert (k = c) as -> by congruence.
    rewrite Hs3 in Hs'. injection Hs' as <-. discriminate.
Qed.



End SocketProperties.

(** * Further properties of the whole server *)

Arguments push_to : simpl never.

Section ServerProperties.

Context (jwt_verify : string → option JwtPayload)
        (jwt_sign : JwtPayload → string)
        (bcrypt_hash : string → string)
        (bcrypt_compare : string → string → bool)
        (String_toLowerCase String_trim : string → string)
        (GEMINI_API_KEY : option string).

Local Abbreviation step' :=
  (step jwt_verify jwt_sign bcrypt_hash bcrypt_compare String_toLowerCase String_trim
        GEMINI_API_KEY).
Local Abbreviation run' :=
  (run jwt_verify jwt_sign bcrypt_hash bcrypt_compare String_toLowerCase String_trim
       GEMINI_API_KEY).

Local Ltac run_event :=
  unfold step, handle2, handle, signup, upload_verification, verify_action,
    post_properties, put_property, delete_property, post_favorites, post_review,
    change_password, update_username, upload_picture, update_bio, delete_account,
    post_view, delete_favorite, post_conversations, post_conversations_lookup,
    post_conversations_create, mark_read, ask_ai, authenticated,
    on_message, on_auth, on_chat, on_timer, on_close, on_connection, ws_close.

Lemma run_snoc (es : list Event) (e : Event) (st : Server) :
  run' (es ++ [e]) st = step' e (run' es st).
Proof. unfold run. by rewrite fold_left_app. Qed.


Local Ltac save_all :=
  repeat match goal with
  | H : User_save _ _ = inr _ |- _ =>
      unfold User_save in H; repeat case_match; simplify_eq
  | H : Property_save _ _ = inr _ |- _ =>
      unfold Property_save in H; repeat case_match; simplify_eq
  | H : Favorite_save _ _ = inr _ |- _ =>
      unfold Favorite_save in H; repeat case_match; simplify_eq
  | H : Notification_save _ _ = inr _ |- _ =>
      unfold Notification_save in H; repeat case_match; simplify_eq
  | H : Review_save _ _ = inr _ |- _ =>
      unfold Review_save in H; repeat case_match; simplify_eq
  | H : Message_save _ _ = inr _ |- _ =>
      unfold Message_save in H; repeat case_match; simplify_eq
  end.

Lemma cascade_keeps (req_user : JwtPayload) (d : Db) :
  messages (cascade req_user d) = messages d ∧
  reviews (cascade req_user d) = reviews d ∧
  notifications (cascade req_user d) = notifications d ∧
  users (cascade req_user d) = users d.
Proof. unfold cascade. by repeat case_match. Qed.

Lemma conversations_cascade (req_user : JwtPayload) (d : Db) :
  conversations (cascade req_user d) `sublist_of` conversations d.
Proof. unfold cascade. repeat case_match; simpl; auto using deleteMany_sublist. Qed.

Lemma step_messages (e : Event) (st : Server) :
  messages (db st) `prefix_of` messages (db (step' e st)).
Proof.
  destruct e as [r|r|c|c f oid|c|oid]; [destruct r|destruct r|..];
    run_event; repeat case_match; save_all; simpl;
    rewrite ?(proj1 (cascade_keeps _ _));
    first [done | by apply prefix_app_r].
Qed.

Lemma step_reviews (e : Event) (st : Server) :
  reviews (db (step' e st)) = reviews (db st) ∨
  ∃ r, reviews (db (step' e st)) = (reviews (db st) ++ [r])%list ∧
       valid_review r ∧ existsb (same_review r) (reviews (db st)) = false.
Proof.
  destruct e as [r|r|c|c f oid|c|oid]; [destruct r|destruct r|..];
    run_event; repeat case_match; save_all; simpl;
    rewrite ?(proj1 (proj2 (cascade_keeps _ _)));
    try (by left).
  all: right; eexists; split; [reflexivity|]; split; [|done].
  all: unfold valid_review; simpl.
  all: repeat match goal with
       | H : _ && _ = true |- _ => apply andb_true_iff in H as [? ?]
       end.
  all: simpl in *; split_and!;
    [by apply Z.leb_le|by apply Z.leb_le|by apply truthy_nonempty|by apply Nat.leb_le].
Qed.

(** An event leaves the verification status of every stored user alone,
    except the verification upload for that user, which makes it pending, and
    the verify action for that user, which makes it approved or rejected. *)
Lemma step_verification (e : Event) (st : Server) (id : Id) (u u' : User) :
  unique_user_ids (db st) →
  findById u_id id (users (db st)) = Some u →
  findById u_id id (users (db (step' e st))) = Some u' →
  verificationStatus u' ≠ verificationStatus u →
  (∃ h doc, e = Http (PostUploadVerification h id doc) ∧ verificationStatus u' = VPending) ∨
  (∃ h, e = Http (PostVerifyAction h id "approve") ∧ verificationStatus u' = VApproved) ∨
  (∃ h, e = Http (PostVerifyAction h id "reject") ∧ verificationStatus u' = VRejected).
Proof.
  intros Hnd Hu Hu' Hneq.
  destruct e as [r|r|c|c f oid|c|oid]; [destruct r|destruct r|..];
    revert Hu'; run_event; repeat case_match; simpl;
    rewrite ?(proj2 (proj2 (proj2 (cascade_keeps _ _)))); save_all;
    simpl; intros Hu'; try (exfalso; congruence).
  all: rewrite ?(findById_app _ _ _ _ _ Hu) in Hu';
    try (rewrite findById_update_first in Hu' by done);
    try (rewrite findById_delete_first in Hu' by exact Hnd);
    rewrite ?Hu in Hu'.
  all: try (destruct (str_eq id _) eqn:E; simpl in Hu'; simplify_eq; simpl in *;
            try congruence).
  all: try (exfalso; congruence).
  all: repeat match goal with
       | H : str_eq _ _ = true |- _ => apply str_eq_true in H; subst
       end.
  - left. eauto.
  - right. left. eauto.
  - right. right.
    match goal with
    | H : negb _ = false, H1 : str_eq _ "approve" = false |- _ =>
        apply negb_false_iff in H; rewrite H1 in H; simpl in H;
        rewrite orb_false_r in H; apply str_eq_true in H; subst
    end.
    eauto.
Qed.


(** X7: messages and reviews are never altered or removed: after any run of
    events the stored messages, and the stored reviews, start with the ones
    that were stored before, in the same order. *)
Theorem messages_and_reviews_append_only (es : list Event) (st : Server) :
  messages (db st) `prefix_of` messages (db (run' es st)) ∧
  reviews (db st) `prefix_of` reviews (db (run' es st)).
Proof.
  induction es as [|e es IH] using rev_ind; [done|].
  rewrite run_snoc. destruct IH as [IHm IHr]. split.
  - etrans; [exact IHm|apply step_messages].
  - etrans; [exact IHr|].
    destruct (step_reviews e (run' es st)) as [->|(r & -> & _)];
      [done|by apply prefix_app_r].
Qed.

(** X8: every run of events keeps the reviews valid and unique: each stored
    review has a rating from 1 to 5 and a comment of 1 to 1000 UTF-16 units,
    which is what the schema's [maxLength] counts, and no (property, user)
    pair has two. *)
Theorem reviews_stay_valid_and_unique (es : list Event) (st : Server) :
  Forall valid_review (reviews (db st)) → unique_reviews (db st) →
  Forall valid_review (reviews (db (run' es st))) ∧ unique_reviews (db (run' es st)).
Proof.
  intros Hv Hu. induction es as [|e es IH] using rev_ind; [done|].
  rewrite run_snoc. destruct IH as [IHv IHu]. unfold unique_reviews in *.
  destruct (step_reviews e (run' es st)) as [->|(r & -> & Hr & Hfresh)]; [done|].
  split.
  - apply Forall_app. split; [done|by apply Forall_singleton].
  - apply (NoDup_snoc_fresh _ same_review); [|done..].
    intros y Hf Heq. unfold same_review in Hf. injection Heq as H1 H2.
    rewrite H1, H2, !str_eq_refl in Hf. discriminate.
Qed.

Lemma step_conversations (e : Event) (st : Server) :
  conversations (db (step' e st)) `sublist_of` conversations (db st) ∨
  ∃ c, conversations (db (step' e st)) = (conversations (db st) ++ [c])%list ∧
       ∀ c', c' ∈ conversations (db st) →
             (c_property_id c', student_id c') ≠ (c_property_id c, student_id c).
Proof.
  destruct e as [r|r|c|c f oid|c|oid]; [destruct r|destruct r|..];
    run_event; repeat case_match; save_all; simpl;
    try (left; auto using conversations_cascade; done).
  simplify_eq. right. eexists. split; [reflexivity|]. simpl.
  intros c' Hin Heq. injection Heq as Hproperty Hstudent.
  apply list_elem_of_In in Hin.
  match goal with H : List.find _ _ = None |- _ =>
    pose proof (find_none _ _ H c' Hin) as Hno end.
  simpl in Hno. by rewrite Hproperty, Hstudent, !str_eq_refl in Hno.
Qed.

(** Served one at a time, with nothing between the lookup of a conversation
    request and its save, the events keep at most one conversation per
    (property, student) pair.  Two requests whose lookups both precede the
    saves are another matter: see the conversation route below. *)
Lemma conversations_unique_without_overlap (es : list Event) (st : Server) :
  unique_conversations (db st) → unique_conversations (db (run' es st)).
Proof.
  intros Hu. induction es as [|e es IH] using rev_ind; [done|].
  rewrite run_snoc. unfold unique_conversations in *.
  destruct (step_conversations e (run' es st)) as [Hsub|(c & -> & Hfresh)].
  - eapply sublist_NoDup; [exact IH|]. by apply (fmap_sublist _).
  - rewrite map_app. simpl. apply NoDup_app. split_and!; [done| |apply NoDup_singleton].
    intros k Hk Hk'. apply list_elem_of_singleton in Hk'. subst k.
    apply list_elem_of_In, in_map_iff in Hk as (c' & Hc' & Hin).
    by apply (Hfresh c'); [apply list_elem_of_In|].
Qed.

End ServerProperties.

(** ** Reviews and verification on the small deployment *)



(** C6 (the code at the failing input): Lea has never been verified.  A
    request to the verify action that carries no token at all, so that it
    comes from no administrator, is answered 200 and makes her approved and
    verified; a verification upload without a token makes her pending. *)
Theorem C6_status_changed_without_admin :
  let approve := PostVerifyAction None "l1" "approve" in
  let upload := PostUploadVerification None "l1" "data:image/png;base64,AAAA" in
  let serve r := handle Demo.verify Demo.sign Demo.hash Demo.compare Demo.lower Demo.strip
                   r Demo.server in
  authorization_of approve = None ∧ from_admin Demo.verify approve = false ∧
  authorization_of upload = None ∧ from_admin Demo.verify upload = false ∧
  findById u_id "l1" (users (db Demo.server)) = Some Demo.lea ∧
  verificationStatus Demo.lea = VNone ∧ isVerified Demo.lea = false ∧
  status (serve approve).1 = 200%nat ∧
  findById u_id "l1" (users (db (serve approve).2))
  = Some (with_verification VApproved (Some true) None Demo.lea) ∧
  status (serve upload).1 = 200%nat ∧
  (verificationStatus <$> findById u_id "l1" (users (db (serve upload).2)))
  = Some VPending.
Proof. split_and!; reflexivity. Qed.

(** * Further properties of the routes *)

Lemma split_space_single (w : string) : has_space w = false → split_space w = [w].
Proof.
  induction w as [|c w IH]; simpl; [done|].
  intros [Hc Hw]%orb_false_iff. rewrite Hc, (IH Hw). done.
Qed.

Lemma split_space_word (w rest : string) :
  has_space w = false → split_space (w ++ " " ++ rest) = w :: split_space rest.
Proof.
  induction w as [|c w IH]; simpl; [done|].
  intros [Hc Hw]%orb_false_iff. rewrite Hc, (IH Hw). done.
Qed.

Lemma find_update_first {A} (P Q : A → bool) (f : A → A) (l : list A) (x : A) :
  (∀ y, P (f y) = P y) →
  List.find P l = Some x → List.find Q l = Some x →
  List.find P (update_first Q f l) = Some (f x).
Proof.
  intros HP. induction l as [|y l IH]; simpl; [done|].
  destruct (Q y) eqn:EQ; simpl.
  - intros HfP [= <-]. rewrite HP. destruct (P y) eqn:EP; [done|].
    apply find_some in HfP as [_ HPy]. congruence.
  - destruct (P y) eqn:EP; [|exact IH].
    intros [= <-] HfQ. apply find_some in HfQ as [_ HQy]. congruence.
Qed.

Lemma find_app_new {A} (P : A → bool) (l : list A) (x : A) :
  List.find P l = None → P x = true → List.find P (l ++ [x]) = Some x.
Proof.
  induction l as [|y l IH]; simpl; intros Hn Hx; [by rewrite Hx|].
  destruct (P y); [done|by apply IH].
Qed.

Lemma existsb_find_none {A} (P : A → bool) (l : list A) :
  existsb P l = false → List.find P l = None.
Proof.
  induction l as [|y l IH]; simpl; [done|].
  destruct (P y); [done|exact IH].
Qed.

Lemma update_first_none {A} (P : A → bool) (f : A → A) (l : list A) :
  List.find P l = None → update_first P f l = l.
Proof.
  induction l as [|y l IH]; simpl; [done|].
  destruct (P y); [done|]. intros H. by rewrite IH.
Qed.

Lemma delete_first_none {A} (P : A → bool) (l : list A) :
  List.find P l = None → delete_first P l = l.
Proof.
  induction l as [|y l IH]; simpl; [done|].
  destruct (P y); [done|]. intros H. by rewrite IH.
Qed.

Lemma delete_first_app_new {A} (P : A → bool) (l : list A) (x : A) :
  List.find P l = None → P x = true → delete_first P (l ++ [x]) = l.
Proof.
  induction l as [|y l IH]; simpl; intros Hn Hx; [by rewrite Hx|].
  destruct (P y); [done|]. by rewrite IH.
Qed.

Lemma map_update_first {A B} (key : A → B) (P : A → bool) (f : A → A) (l : list A) :
  (∀ y, key (f y) = key y) → List.map key (update_first P f l) = List.map key l.
Proof.
  intros Hkey. induction l as [|y l IH]; simpl; [done|].
  destruct (P y); simpl; by rewrite ?Hkey, ?IH.
Qed.

Lemma upload_all_Some (files : list (option string)) (urls : list string) :
  upload_all files = Some urls ↔ files = List.map Some urls.
Proof.
  revert urls. induction files as [|[url|] files IH]; intros urls; simpl.
  - split; [by intros [= <-]|by destruct urls].
  - destruct (upload_all files) as [us|]; simpl.
    + split.
      * intros [= <-]. simpl. f_equal. by apply IH.
      * destruct urls as [|u urls]; [done|]. intros [= -> Hf]. apply IH in Hf.
        by injection Hf as ->.
    + split; [done|]. destruct urls as [|u urls]; [done|]. intros [= -> Hf].
      by apply IH in Hf.
  - split; [done|by destruct urls].
Qed.

Lemma new_property_fields (oid : Id) (b : PropertyFields) (urls : list string)
    (owner : Id) (p : Property) :
  new_property oid b urls owner = Some p →
  p_id p = oid ∧ landlord_id p = owner ∧ images p = urls ∧
  image_url p = default "" (head urls) ∧
  pf_title b = Some (title p) ∧ pf_address b = Some (address p) ∧
  pf_city b = Some (city p) ∧ pf_price b = Some (price p) ∧
  pf_property_type b = Some (property_type p).
Proof.
  unfold new_property. intros H.
  destruct (pf_title b), (pf_address b), (pf_city b), (pf_price b), (pf_property_type b);
    simpl in H; simplify_eq. by simpl.
Qed.

Lemma server_eta (st : Server) :
  {| db := db st; clients := clients st; sockets := sockets st;
     outbox := outbox st; timers := timers st |} = st.
Proof. by destruct st. Qed.

Lemma set_favorites_same (d : Db) : set_favorites (favorites d) d = d.
Proof. by destruct d. Qed.

Lemma set_db_same (st : Server) : set_db (db st) st = st.
Proof. by destruct st. Qed.

(** With unique keys, the only document with the updated key in the updated
    collection is the updated one. *)
Lemma elem_of_update_first {A} (key : A → Id) (f : A → A) (id : Id) (l : list A) (x : A) :
  (∀ y, key (f y) = key y) →
  NoDup (List.map key l) →
  x ∈ update_first (λ y, str_eq (key y) id) f l → key x = id →
  ∃ y, findById key id l = Some y ∧ x = f y.
Proof.
  intros Hkey. unfold findById. induction l as [|y l IH]; simpl; intros Hnd Hin Hx.
  - by apply elem_of_nil in Hin.
  - apply NoDup_cons in Hnd as [Hy Hnd].
    destruct (str_eq (key y) id) eqn:E.
    + apply str_eq_true in E. apply elem_of_cons in Hin as [->|Hin]; [eauto|].
      exfalso. apply Hy. rewrite E, <- Hx. by apply list_elem_of_In, in_map, list_elem_of_In.
    + apply str_eq_false in E. apply elem_of_cons in Hin as [->|Hin]; [done|].
      by apply IH.
Qed.

Lemma find_first_with_key {A} (key : A → Id) (Q : A → bool) (id : Id) (l : list A) (x : A) :
  findById key id l = Some x → Q x = true →
  List.find (λ y, str_eq (key y) id && Q y) l = Some x.
Proof.
  unfold findById. induction l as [|y l IH]; simpl; [done|].
  destruct (str_eq (key y) id); simpl; [|exact IH].
  intros [= ->] HQ. by rewrite HQ.
Qed.

Lemma unique_key_elem {A} (key : A → Id) (id : Id) (l : list A) (x y : A) :
  NoDup (List.map key l) → findById key id l = Some x →
  y ∈ l → key y = id → y = x.
Proof.
  unfold findById. induction l as [|z l IH]; simpl; intros Hnd Hfind Hin Hk.
  - by apply elem_of_nil in Hin.
  - apply NoDup_cons in Hnd as [Hz Hnd].
    destruct (str_eq (key z) id) eqn:E.
    + injection Hfind as <-. apply elem_of_cons in Hin as [->|Hin]; [done|].
      apply str_eq_true in E. exfalso. apply Hz. rewrite E, <- Hk.
      by apply list_elem_of_In, in_map, list_elem_of_In.
    + apply str_eq_false in E. apply elem_of_cons in Hin as [->|Hin]; [done|].
      by apply IH.
Qed.

Lemma filter_snoc {A} (P : A → bool) (l : list A) (x : A) :
  List.filter P (l ++ [x]) = (List.filter P l ++ if P x then [x] else [])%list.
Proof.
  induction l as [|y l IH]; simpl; [by destruct (P x)|].
  destruct (P y); simpl; by rewrite IH.
Qed.

Lemma elem_of_update_first_cases {A} (P : A → bool) (f : A → A) (l : list A) (x : A) :
  x ∈ update_first P f l → x ∈ l ∨ ∃ y, y ∈ l ∧ x = f y.
Proof.
  induction l as [|y l IH]; simpl; [by left|].
  destruct (P y).
  - intros [->|Hin]%elem_of_cons.
    + right. exists y. split; [by left|done].
    + left. by right.
  - intros [->|Hin]%elem_of_cons; [left; by left|].
    destruct (IH Hin) as [?|(z & ? & ->)]; [left; by right|].
    right. exists z. split; [by right|done].
Qed.

Lemma NoDup_update_name {A} (key nm : A → string) (f : A → A) (id name : string)
    (l : list A) :
  (∀ y, nm (f y) = name) →
  NoDup (List.map key l) → NoDup (List.map nm l) →
  (∀ u, u ∈ l → nm u = name → key u = id) →
  NoDup (List.map nm (update_first (λ y, str_eq (key y) id) f l)).
Proof.
  intros Hf. induction l as [|y l IH]; simpl; intros Hk Hn Hname; [done|].
  apply NoDup_cons in Hk as [Hky Hk]. apply NoDup_cons in Hn as [Hny Hn].
  destruct (str_eq (key y) id) eqn:E; simpl; apply NoDup_cons.
  - apply str_eq_true in E. split; [|done]. rewrite Hf.
    intros Hin. apply list_elem_of_In, in_map_iff in Hin as (u & Hu & Hin).
    apply list_elem_of_In in Hin.
    apply Hky. rewrite E, <- (Hname u); [|by right|done].
    by apply list_elem_of_In, in_map, list_elem_of_In.
  - apply str_eq_false in E. split.
    + intros Hin. apply list_elem_of_In, in_map_iff in Hin as (u & Hu & Hin).
      apply list_elem_of_In, elem_of_update_first_cases in Hin as [Hin|(z & _ & ->)].
      * apply Hny. rewrite <- Hu. by apply list_elem_of_In, in_map, list_elem_of_In.
      * rewrite Hf in Hu. apply E. apply Hname; [by left|done].
    + apply IH; [done..|]. intros u Hu. apply Hname. by right.
Qed.

Lemma updateMany_lookup {A} (P : A → bool) (f : A → A) (l : list A) (i : nat) (x : A) :
  l !! i = Some x → updateMany P f l !! i = Some (if P x then f x else x).
Proof.
  unfold updateMany. intros Hx.
  change (List.map ?g l) with (g <$> l). by rewrite list_lookup_fmap, Hx.
Qed.

Lemma updateMany_twice {A} (P : A → bool) (f : A → A) (l : list A) :
  (∀ x, P (f x) = false) → updateMany P f (updateMany P f l) = updateMany P f l.
Proof.
  intros HP. unfold updateMany. rewrite List.map_map. apply List.map_ext.
  intros x. destruct (P x) eqn:E; [by rewrite HP|by rewrite E].
Qed.

Section RouteProperties.

Context (jwt_verify : string → option JwtPayload)
        (jwt_sign : JwtPayload → string)
        (bcrypt_hash : string → string)
        (bcrypt_compare : string → string → bool)
        (String_toLowerCase String_trim : string → string)
        (GEMINI_API_KEY : option string).

Local Abbreviation handle' :=
  (handle jwt_verify jwt_sign bcrypt_hash bcrypt_compare String_toLowerCase String_trim).
Local Abbreviation signup' := (signup jwt_sign bcrypt_hash String_toLowerCase String_trim).
Local Abbreviation login' := (login jwt_sign bcrypt_compare String_toLowerCase).
Local Abbreviation auth' := (authenticateToken jwt_verify).

(** X10: a header of two words separated by one space authenticates exactly
    when its second word verifies, and is answered 403 with the body
    [Forbidden] otherwise; the first word is never looked at. *)
Theorem header_second_word_decides (scheme token : string) :
  has_space scheme = false → has_space token = false →
  auth' (Some (scheme ++ " " ++ token)) =
  match jwt_verify token with
  | Some user => inr user
  | None => inl (sendStatus 403 "Forbidden")
  end.
Proof.
  intros Hs Ht. unfold authenticateToken, bearer.
  assert (truthy (scheme ++ " " ++ token) = true) as ->
    by (destruct scheme; reflexivity).
  by rewrite (split_space_word _ _ Hs), (split_space_single _ Ht).
Qed.

(** X11: a request to a route behind [authenticateToken] whose header is
    refused changes nothing and is answered with the reason phrase as its
    body: 401 [Unauthorized] when the header is missing or has a single word,
    403 [Forbidden] when the token does not verify.  The routes that read
    refuse it in the same way. *)
Theorem refused_header_changes_nothing (q : Request) (r : Response) (st : Server) :
  protected q = true →
  auth' (authorization_of q) = inl r →
  handle' q st = (r, st) ∧
  (bearer (authorization_of q) = None ∧ r = sendStatus 401 "Unauthorized" ∨
   (∃ token, bearer (authorization_of q) = Some token ∧ jwt_verify token = None) ∧
   r = sendStatus 403 "Forbidden") ∧
  get_favorites jwt_verify (authorization_of q) 0 st = Refused r ∧
  (∀ id, get_messages jwt_verify (authorization_of q) id st = Refused r) ∧
  get_notifications jwt_verify (authorization_of q) st = Refused r ∧
  dashboard_stats jwt_verify (authorization_of q) st = Refused r ∧
  (∀ pid, delete_favorite jwt_verify (authorization_of q) pid st = (r, st)) ∧
  mark_read jwt_verify (authorization_of q) st = (r, st).
Proof.
  intros Hp Hauth.
  assert (handle' q st = (r, st)) as Hq.
  { destruct q; try discriminate; simpl in Hauth;
      unfold handle, post_properties, put_property, delete_property, post_favorites,
        post_review, change_password, update_username, upload_picture, update_bio,
        delete_account, authenticated; by rewrite Hauth. }
  split; [exact Hq|].
  unfold get_favorites, get_messages, get_notifications, dashboard_stats,
    delete_favorite, mark_read, authenticated. rewrite Hauth.
  split_and!; try done.
  unfold authenticateToken in Hauth.
  destruct (bearer (authorization_of q)) as [token|] eqn:Hb;
    [destruct (jwt_verify token) eqn:Hv|]; simplify_eq; simpl; eauto.
Qed.

(** X12: signing up with an e-mail that a stored user has, compared after
    JavaScript's [toLowerCase], is answered 409 and stores nothing; so is,
    for a new e-mail, a user name that a stored user has, compared after
    JavaScript's [trim].  The two string functions are the section's
    [String_toLowerCase] and [String_trim]. *)
Theorem signup_conflicts (email_in password_in userType_in username_in : string)
    (oid : Id) (existing : User) (st : Server) :
  existing ∈ users (db st) →
  (email existing = String_toLowerCase email_in →
   signup' email_in password_in userType_in username_in oid st
   = (reply 409 "Email already registered.", st)) ∧
  ((∀ u, u ∈ users (db st) → email u ≠ String_toLowerCase email_in) →
   username existing = String_trim username_in →
   signup' email_in password_in userType_in username_in oid st
   = (reply 409 "Username is already taken.", st)).
Proof.
  intros Hin. apply list_elem_of_In in Hin. unfold signup. split.
  - intros Hmail.
    replace (existsb _ (users (db st))) with true; [done|].
    symmetry. apply existsb_exists. exists existing. split; [done|by apply str_eq_true].
  - intros Hnew Hname.
    replace (existsb (λ u, str_eq (email u) _) (users (db st))) with false.
    + replace (existsb _ (users (db st))) with true; [done|].
      symmetry. apply existsb_exists. exists existing. split; [done|by apply str_eq_true].
    + symmetry. apply not_true_is_false. intros (u & Hu & He)%existsb_exists.
      apply str_eq_true in He. by apply (Hnew u); [apply list_elem_of_In|].
Qed.

(** X13: a sign-up answered 201 stores one more user, unverified, with status
    none, the name after JavaScript's [trim], the e-mail after JavaScript's
    [toLowerCase] and the hashed password;
    and, when hashing and comparing agree, logging in with the same e-mail
    and password is then answered 200 with a token for that user. *)
Theorem signup_then_login (email_in password_in userType_in username_in : string)
    (oid : Id) (st : Server) :
  (∀ pw, bcrypt_compare pw (bcrypt_hash pw) = true) →
  let out := signup' email_in password_in userType_in username_in
               oid st in
  status out.1 = 201%nat →
  let newUser :=
    {| u_id := oid; username := String_trim username_in;
       email := String_toLowerCase email_in;
       password := bcrypt_hash password_in; user_type := userType_in;
       profilePictureUrl := ""; bio := ""; isVerified := false;
       verificationStatus := VNone; verificationDocument := "" |} in
  db out.2 = set_users (users (db st) ++ [newUser]) (db st) ∧
  userType_in ∈ user_types ∧
  login' email_in password_in out.2 =
  {| status := 200;
     body := BSession (jwt_sign {| userId := oid; jwt_username := String_trim username_in;
                                   userType := userType_in |}) newUser |}.
Proof.
  intros Hlaw out. subst out. unfold signup.
  destruct (existsb (λ u, str_eq (email u) (String_toLowerCase email_in)) (users (db st)))
    eqn:Hmail; [discriminate|].
  destruct (existsb (λ u, str_eq (username u) (String_trim username_in)) (users (db st)))
    eqn:Hname; [discriminate|].
  unfold User_save, User_validate. cbn [username email password user_type bio].
  repeat case_match; try discriminate. intros _. simplify_eq. simpl.
  split_and!.
  - done.
  - repeat match goal with
           | H : _ && _ = true |- _ => apply andb_true_iff in H as [H ?]
           end.
    match goal with H : existsb _ user_types = true |- _ =>
      apply existsb_exists in H as (x & Hx & He) end.
    apply str_eq_true in He. subst x. by apply list_elem_of_In.
  - unfold login. simpl.
    erewrite find_app_new; [|by apply existsb_find_none|apply str_eq_refl].
    simpl. by rewrite Hlaw.
Qed.

(** X14: logging in is answered 200 only for a stored user whose e-mail is
    the input after JavaScript's [toLowerCase] and whose stored hash matches
    the password; an
    unknown e-mail and a wrong password get the same 401 response. *)
Theorem login_outcomes (email_in password_in : string) (st : Server) :
  let out := login' email_in password_in st in
  (status out = 200%nat →
   ∃ user, user ∈ users (db st) ∧ email user = String_toLowerCase email_in ∧
           bcrypt_compare password_in (password user) = true) ∧
  (status out ≠ 200%nat → out = reply 401 "Invalid email or password.").
Proof.
  intros out. subst out. unfold login.
  destruct (List.find _ (users (db st))) as [user|] eqn:Hfind.
  - apply find_some in Hfind as [Hin He]. apply str_eq_true in He.
    destruct (bcrypt_compare password_in (password user)) eqn:Hc; simpl.
    + split; [|done]. intros _. exists user. by rewrite list_elem_of_In.
    + split; [discriminate|done].
  - simpl. split; [discriminate|done].
Qed.

(** X15: after the verify action on a stored user the flag [isVerified] is
    set exactly when the action was [approve]; a verification upload that
    follows makes the status pending and leaves the flag as it is, so an
    approved user who uploads again is pending and still verified.  The verify
    action for an id that no user has is answered 200 and changes no user. *)
Theorem verification_flag_follows_action (id action documentImage : string)
    (u : User) (st : Server) :
  action = "approve" ∨ action = "reject" →
  id ≠ "" → documentImage ≠ "" →
  let st1 := (verify_action id action st).2 in
  let st2 := (upload_verification id documentImage st1).2 in
  (findById u_id id (users (db st)) = Some u →
   ∃ u1 u2,
     findById u_id id (users (db st1)) = Some u1 ∧
     (isVerified u1 = true ↔ action = "approve") ∧
     (verificationStatus u1 = VApproved ↔ action = "approve") ∧
     (verificationStatus u1 = VRejected ↔ action = "reject") ∧
     findById u_id id (users (db st2)) = Some u2 ∧
     verificationStatus u2 = VPending ∧
     isVerified u2 = isVerified u1 ∧
     verificationDocument u2 = documentImage) ∧
  (findById u_id id (users (db st)) = None →
   status (verify_action id action st).1 = 200%nat ∧ users (db st1) = users (db st)).
Proof.
  intros Haction Hid Hdoc st1 st2. apply truthy_nonempty in Hid, Hdoc.
  assert (negb (existsb (str_eq action) ["approve"; "reject"]) = false) as Hok.
  { destruct Haction as [->| ->]; reflexivity. }
  split.
  - intros Hu.
    assert (findById u_id id (users (db st1)) =
            Some (with_verification (if str_eq action "approve" then VApproved else VRejected)
                    (Some (str_eq action "approve")) None u)) as H1.
    { subst st1. unfold verify_action. rewrite Hok. simpl.
      rewrite findById_update_first by done. by rewrite str_eq_refl, Hu. }
    eexists _, _. split; [exact H1|].
    subst st2. unfold upload_verification. rewrite Hid, Hdoc. simpl.
    rewrite findById_update_first by done. rewrite str_eq_refl, H1. simpl.
    rewrite findById_update_first by done. rewrite str_eq_refl, H1. simpl.
    destruct Haction as [->| ->]; simpl; split_and!; try done; split; done.
  - intros Hnone. subst st1. unfold verify_action. rewrite Hok. simpl.
    split; [done|]. by apply update_first_none.
Qed.

(** X16: the list of pending verifications holds exactly the stored users
    whose status is pending, for any caller; with unique user ids, a user
    enters it with the verification upload and leaves it with the verify
    action. *)
Theorem pending_list_follows_requests (id action documentImage : string)
    (u : User) (st : Server) :
  unique_user_ids (db st) →
  findById u_id id (users (db st)) = Some u →
  action = "approve" ∨ action = "reject" →
  id ≠ "" → documentImage ≠ "" →
  let st1 := (upload_verification id documentImage st).2 in
  let st2 := (verify_action id action st1).2 in
  (∀ v s, v ∈ admin_verifications s ↔ v ∈ users (db s) ∧ verificationStatus v = VPending) ∧
  (∃ v, v ∈ admin_verifications st1 ∧ u_id v = id) ∧
  (∀ v, v ∈ admin_verifications st2 → u_id v ≠ id).
Proof.
  intros Hnd Hu Haction Hid Hdoc st1 st2. apply truthy_nonempty in Hid, Hdoc.
  assert (∀ v s, v ∈ admin_verifications s ↔
                 v ∈ users (db s) ∧ verificationStatus v = VPending) as Hlist.
  { intros v s. unfold admin_verifications. rewrite !list_elem_of_In, filter_In.
    destruct (verificationStatus v); split; intros [? ?]; done. }
  assert (users (db st1) =
          update_first (λ y, str_eq (u_id y) id)
            (with_verification VPending None (Some documentImage)) (users (db st))) as Hst1.
  { subst st1. unfold upload_verification. rewrite Hid, Hdoc. simpl.
    rewrite findById_update_first by done. by rewrite str_eq_refl, Hu. }
  assert (findById u_id id (users (db st1)) =
          Some (with_verification VPending None (Some documentImage) u)) as H1.
  { rewrite Hst1, findById_update_first by done. by rewrite str_eq_refl, Hu. }
  split_and!; [exact Hlist| |].
  - eexists. rewrite Hlist. apply findById_Some in H1 as [Hin Hk]. split; [|exact Hk].
    split; [exact Hin|done].
  - intros v [Hin Hpending]%Hlist Hv.
    assert (negb (existsb (str_eq action) ["approve"; "reject"]) = false) as Hok.
    { destruct Haction as [->| ->]; reflexivity. }
    revert Hin. subst st2. unfold verify_action. rewrite Hok. simpl. intros Hin.
    apply elem_of_update_first in Hin as (y & _ & ->); [|done| |done].
    + simpl in Hpending. by destruct (str_eq action "approve").
    + rewrite Hst1. by rewrite map_update_first.
Qed.

(** X17: a listing answered 201 stores exactly one new property, owned by
    the caller whatever owner the body names, with the uploaded image URLs in
    order; any other answer (a failed upload, a missing required field, a
    type outside the enum, an unknown caller) leaves the state unchanged. *)
Theorem post_properties_outcomes (authorization : option string) (b : PropertyFields)
    (files : list (option string)) (oid : Id) (st : Server) :
  let out := post_properties jwt_verify authorization b files oid st in
  (status out.1 = 201%nat →
   ∃ req_user p,
     auth' authorization = inr req_user ∧
     db out.2 = set_properties (properties (db st) ++ [p]) (db st) ∧
     p_id p = oid ∧ landlord_id p = userId req_user ∧
     files = List.map Some (images p) ∧
     property_type p ∈ property_types ∧
     title p ≠ "" ∧ address p ≠ "" ∧ city p ≠ "") ∧
  (status out.1 ≠ 201%nat → out.2 = st).
Proof.
  intros out. subst out. unfold post_properties, authenticated.
  destruct (auth' authorization) as [r|req_user] eqn:Hauth; simpl.
  { split; [|done]. intros Hr. exfalso. unfold authenticateToken in Hauth.
    destruct (bearer authorization); [destruct (jwt_verify s)|]; by simplify_eq. }
  destruct (findById u_id (userId req_user) (users (db st))) as [user|];
    [|split; [discriminate|done]].
  rewrite ?gatekeeper_never_fires. simpl.
  destruct (upload_all files) as [urls|] eqn:Hup; [|split; [discriminate|done]].
  destruct (new_property oid b urls (userId req_user)) as [p|] eqn:Hnew;
    [|split; [discriminate|done]].
  unfold Property_save.
  destruct (truthy (title p) && truthy (address p) && truthy (city p)
            && existsb (str_eq (property_type p)) property_types) eqn:Hvalid;
    [|split; [discriminate|done]].
  simpl. split; [|done]. intros _.
  apply new_property_fields in Hnew as (Hid & Hown & Himg & _).
  apply upload_all_Some in Hup.
  repeat (apply andb_true_iff in Hvalid as [Hvalid ?]).
  exists req_user, p. split_and!; try done; try (by apply truthy_nonempty).
  - by rewrite Himg.
  - match goal with H : existsb _ property_types = true |- _ =>
      apply existsb_exists in H as (x & Hx & He) end.
    apply str_eq_true in He. subst x. by apply list_elem_of_In.
Qed.

(** X18: when its owner deletes a property, with unique property ids, the
    property can no longer be fetched, while the favorites, conversations,
    views and reviews that reference it all stay in the store; the favorites
    route drops such a favorite from every list it returns. *)
Theorem delete_property_leaves_references (authorization : option string)
    (req_user : JwtPayload) (id : Id) (property : Property) (st : Server) :
  unique_property_ids (db st) →
  auth' authorization = inr req_user →
  findById p_id id (properties (db st)) = Some property →
  landlord_id property = userId req_user →
  let out := delete_property jwt_verify authorization id st in
  out.1 = reply 200 "Property removed" ∧
  get_property id out.2 = Refused (reply 404 "Property not found") ∧
  favorites (db out.2) = favorites (db st) ∧
  conversations (db out.2) = conversations (db st) ∧
  views (db out.2) = views (db st) ∧
  reviews (db out.2) = reviews (db st) ∧
  ∀ h limit l, get_favorites jwt_verify h limit out.2 = Sent 200 l →
               ∀ p, p ∈ l → p_id p ≠ id.
Proof.
  intros Hnd Hauth Hfind Hown out. subst out.
  unfold delete_property, authenticated. rewrite Hauth, Hfind, Hown, str_eq_refl. simpl.
  assert (findById p_id id
            (delete_first (λ p, str_eq (p_id p) id) (properties (db st))) = None) as Hgone.
  { rewrite findById_delete_first by exact Hnd. by rewrite str_eq_refl. }
  split_and!; try done.
  - unfold get_property. simpl. by rewrite Hgone.
  - intros h limit l. unfold get_favorites.
    destruct (auth' h) as [|u]; [done|]. intros [= <-] p Hp Hid.
    apply list_elem_of_omap in Hp as (f & _ & Hf). simpl in Hf.
    apply findById_Some in Hf as Hf'. destruct Hf' as [_ Hk].
    rewrite Hid in Hk. rewrite <- Hk in Hf. congruence.
Qed.

(** X19: the owner of a property may name another landlord in an edit; the
    edit is answered 200, the property then belongs to that landlord, and the
    former owner's next edit or deletion of it is answered 403. *)
Theorem edit_can_hand_over_property (authorization : option string)
    (req_user : JwtPayload) (id other : Id) (b b' : PropertyFields)
    (property : Property) (st : Server) :
  auth' authorization = inr req_user →
  findById p_id id (properties (db st)) = Some property →
  landlord_id property = userId req_user →
  pf_landlord_id b = Some other → other ≠ userId req_user →
  let out := put_property jwt_verify authorization id b st in
  status out.1 = 200%nat ∧
  (landlord_id <$> findById p_id id (properties (db out.2))) = Some other ∧
  put_property jwt_verify authorization id b' out.2
  = (reply 403 "User not authorized", out.2) ∧
  delete_property jwt_verify authorization id out.2
  = (reply 403 "User not authorized", out.2).
Proof.
  intros Hauth Hfind Hown Hb Hother out. subst out.
  unfold put_property, delete_property, authenticated.
  rewrite Hauth, Hfind, Hown, str_eq_refl. simpl.
  assert (findById p_id id
            (update_first (λ p, str_eq (p_id p) id) (apply_fields b) (properties (db st)))
          = Some (apply_fields b property)) as Hnew.
  { rewrite findById_update_first by done. by rewrite str_eq_refl, Hfind. }
  rewrite Hnew. simpl. rewrite Hb. simpl.
  apply str_eq_false in Hother. rewrite Hother. done.
Qed.

(** X20: adding a favorite for a pair that has none and then removing it
    gives back the favorites as they were; removing a favorite that does not
    exist is answered 200 and changes nothing. *)
Theorem favorite_add_remove_round_trip (authorization : option string)
    (req_user : JwtPayload) (pid fid nid : Id) (st : Server) :
  auth' authorization = inr req_user →
  (∀ f, f ∈ favorites (db st) →
        ¬ (f_user_id f = userId req_user ∧ f_property_id f = pid)) →
  let added := post_favorites jwt_verify authorization (Some pid) fid nid st in
  let removed := delete_favorite jwt_verify authorization pid added.2 in
  status added.1 = 201%nat ∧
  favorites (db added.2) =
    (favorites (db st) ++
       [{| f_id := fid; f_user_id := userId req_user; f_property_id := pid |}])%list ∧
  removed.1 = reply 200 "Favorite removed" ∧
  favorites (db removed.2) = favorites (db st) ∧
  delete_favorite jwt_verify authorization pid st = (reply 200 "Favorite removed", st).
Proof.
  intros Hauth Hnone added removed.
  assert (List.find (λ f, str_eq (f_user_id f) (userId req_user)
                          && str_eq (f_property_id f) pid) (favorites (db st)) = None)
    as Hfind.
  { apply existsb_find_none, not_true_is_false. intros (f & Hin & Hf)%existsb_exists.
    apply andb_true_iff in Hf as [H1%str_eq_true H2%str_eq_true].
    by apply (Hnone f); [apply list_elem_of_In|]. }
  assert (existsb (same_favorite
            {| f_id := fid; f_user_id := userId req_user; f_property_id := pid |})
            (favorites (db st)) = false) as Hfresh.
  { apply not_true_is_false. intros (f & Hin & Hf)%existsb_exists.
    unfold same_favorite in Hf. simpl in Hf.
    apply andb_true_iff in Hf as [H1%str_eq_true H2%str_eq_true].
    by apply (Hnone f); [apply list_elem_of_In|]. }
  assert (status added.1 = 201%nat ∧
          favorites (db added.2) =
            (favorites (db st) ++
               [{| f_id := fid; f_user_id := userId req_user; f_property_id := pid |}])%list)
    as [H201 Hadded].
  { subst added. unfold post_favorites, authenticated. rewrite Hauth.
    unfold Favorite_save. rewrite Hfresh. simpl.
    repeat case_match; simpl; try done.
    all: match goal with H : Notification_save _ _ = _ |- _ =>
           unfold Notification_save in H; simpl in H; by simplify_eq end. }
  split_and!; try done.
  - subst removed. unfold delete_favorite, authenticated. by rewrite Hauth.
  - subst removed. unfold delete_favorite, authenticated. rewrite Hauth. simpl.
    rewrite Hadded. by apply delete_first_app_new; [|simpl; rewrite !str_eq_refl].
  - unfold delete_favorite, authenticated. rewrite Hauth.
    rewrite delete_first_none by done. by rewrite set_favorites_same, set_db_same.
Qed.


(** X22: starting a conversation is get-or-create on the (property, caller)
    pair: the first call answers 201 with the new id, or 200 with the id of
    the conversation that exists and no change; a second call for the same
    property, whatever landlord it names, answers 200 with the same id and
    changes nothing.  A new conversation records the landlord the body
    names. *)
Theorem conversation_get_or_create (authorization : option string)
    (req_user : JwtPayload) (property_id l1 l2 c1 c2 : Id) (st : Server) :
  auth' authorization = inr req_user →
  let first := post_conversations jwt_verify authorization property_id l1 c1 st in
  let second := post_conversations jwt_verify authorization property_id l2 c2 first.2 in
  ∃ cid,
    second = (Sent 200 cid, first.2) ∧
    (first.1 = Sent 200 cid ∧ first.2 = st ∧
     (∃ c, c ∈ conversations (db st) ∧ c_id c = cid ∧ c_property_id c = property_id ∧
           student_id c = userId req_user) ∨
     first.1 = Sent 201 cid ∧ cid = c1 ∧
     conversations (db first.2) =
       (conversations (db st) ++
          [{| c_id := c1; c_property_id := property_id;
              student_id := userId req_user; c_landlord_id := l1 |}])%list).
Proof.
  intros Hauth first second. subst second first.
  unfold post_conversations, post_conversations_lookup, post_conversations_create.
  rewrite Hauth.
  destruct (List.find _ (conversations (db st))) as [convo|] eqn:Hfind; simpl.
  - rewrite ?Hauth, Hfind. exists (c_id convo). split; [done|]. left.
    split_and!; try done. apply find_some in Hfind as [Hin Hc].
    apply andb_true_iff in Hc as [H1%str_eq_true H2%str_eq_true].
    exists convo. by rewrite list_elem_of_In.
  - rewrite ?Hauth. erewrite find_app_new; [|exact Hfind|simpl; by rewrite !str_eq_refl].
    exists c1. split; [done|]. right. done.
Qed.

(** X9: the conversation route looks up and then saves, with other requests
    running in between, and the schema has no unique index.  When two requests
    of one caller for one property both look up before either saves, both
    find nothing, both are answered 201, and the store then holds two
    conversations for the pair; had the second request started after the
    first had finished, it would have been answered 200 with the first id. *)
Theorem overlapping_requests_duplicate_conversation (h1 h2 : option string)
    (u1 u2 : JwtPayload) (property_id l1 l2 c1 c2 : Id) (st : Server) :
  post_conversations_lookup jwt_verify h1 property_id st = inr u1 →
  post_conversations_lookup jwt_verify h2 property_id st = inr u2 →
  userId u1 = userId u2 →
  let first := post_conversations_create u1 property_id l1 c1 st in
  let second := post_conversations_create u2 property_id l2 c2 first.2 in
  first.1 = Sent 201 c1 ∧ second.1 = Sent 201 c2 ∧
  conversations (db second.2) =
    (conversations (db st) ++
       [{| c_id := c1; c_property_id := property_id;
           student_id := userId u1; c_landlord_id := l1 |};
        {| c_id := c2; c_property_id := property_id;
           student_id := userId u1; c_landlord_id := l2 |}])%list ∧
  ¬ unique_conversations (db second.2) ∧
  post_conversations jwt_verify h2 property_id l2 c2 first.2 = (Sent 200 c1, first.2).
Proof.
  intros Hl1 Hl2 Hsame first second. subst second first.
  unfold post_conversations, post_conversations_lookup in *.
  destruct (auth' h1) as [|v1] eqn:Ha1; [done|].
  destruct (auth' h2) as [|v2] eqn:Ha2; [done|].
  destruct (List.find _ (conversations (db st))) eqn:Hf1 in Hl1; [done|].
  destruct (List.find _ (conversations (db st))) eqn:Hf2 in Hl2; [done|].
  simplify_eq. unfold post_conversations_create, Conversation_save. simpl.
  split_and!; try done.
  - rewrite <- Hsame, <- app_assoc. done.
  - unfold unique_conversations. simpl. rewrite <- app_assoc, map_app. simpl.
    rewrite Hsame. intros Hnd. apply NoDup_app in Hnd as (_ & _ & Hnd).
    apply NoDup_cons in Hnd as [Hnot _]. apply Hnot. left.
  - erewrite find_app_new; [done|exact Hf2|].
    simpl. by rewrite Hsame, !str_eq_refl.
Qed.

(** X23: a delivered chat message is the last message that the student and
    the landlord of its conversation read through the messages route; with
    unique conversation ids, any other authenticated reader is answered 403.
    The sender of the frame does not have to be one of the two. *)
Theorem chat_message_visibility (c : ConnId) (s : Socket) (sender : string)
    (conv : Id) (conversation : Conversation) (text : string) (oid : Id)
    (authorization : option string) (reader : JwtPayload) (st : Server) :
  unique_conversation_ids (db st) →
  sockets st !! c = Some s →
  ws_userId s = Some sender → sender ≠ "" →
  findById c_id conv (conversations (db st)) = Some conversation →
  text ≠ "" →
  auth' authorization = inr reader →
  let st' := on_message jwt_verify c (MessageFrame conv text) oid st in
  let newMessage :=
    {| m_id := oid; conversation_id := conv; sender_id := sender; content := text |} in
  (userId reader = student_id conversation ∨ userId reader = c_landlord_id conversation →
   ∃ before, get_messages jwt_verify authorization conv st = Sent 200 before ∧
             get_messages jwt_verify authorization conv st'
             = Sent 200 (before ++ [newMessage])%list) ∧
  (userId reader ≠ student_id conversation →
   userId reader ≠ c_landlord_id conversation →
   get_messages jwt_verify authorization conv st' = Refused (reply 403 "Unauthorized.")).
Proof.
  intros Hnd Hs Hu Hne Hconv Htext Hauth st' newMessage.
  apply truthy_nonempty in Hne, Htext.
  assert (db st' = set_messages (messages (db st) ++ [newMessage]) (db st)) as Hdb.
  { subst st'. unfold on_message. rewrite Hs, Hu, Hne. unfold on_chat. rewrite Hconv.
    unfold Message_save. cbn [content]. rewrite Htext. by destruct (_ && _). }
  unfold get_messages. rewrite Hauth, Hdb. simpl. split.
  - intros Hpart.
    assert (participant (userId reader) conversation = true) as Hp.
    { unfold participant. apply orb_true_iff.
      destruct Hpart as [->| ->]; [left|right]; apply str_eq_refl. }
    rewrite (find_first_with_key _ _ _ _ _ Hconv Hp).
    eexists. split; [reflexivity|].
    rewrite filter_snoc. simpl. by rewrite str_eq_refl.
  - intros H1 H2.
    destruct (List.find _ (conversations (db st))) as [c'|] eqn:Hfind; [|done].
    apply find_some in Hfind as [Hin Hc].
    apply andb_true_iff in Hc as [Hid%str_eq_true Hp].
    apply list_elem_of_In in Hin.
    rewrite (unique_key_elem _ _ _ _ _ Hnd Hconv Hin Hid) in Hp.
    unfold participant in Hp.
    apply orb_true_iff in Hp as [Hp%str_eq_true|Hp%str_eq_true]; congruence.
Qed.

(** X24: an authenticated review is answered 201 exactly when the caller's
    token says [student], the rating is from 1 to 5, the comment has 1 to
    1000 UTF-16 units and the caller has no review of the property yet; then
    the review is appended, and in every other case the state is unchanged.
    Whether the property exists is never checked. *)
Theorem post_review_outcomes (authorization : option string) (req_user : JwtPayload)
    (propertyId : Id) (rating_in : option Z) (comment_in : string) (rid : Id)
    (st : Server) :
  auth' authorization = inr req_user →
  let out := post_review jwt_verify authorization propertyId rating_in comment_in rid st in
  let acceptable r :=
    userType req_user = "student" ∧ rating_in = Some r ∧ (1 ≤ r ≤ 5)%Z ∧
    comment_in ≠ "" ∧ (js_length comment_in ≤ 1000)%nat ∧
    ∀ q, q ∈ reviews (db st) →
         ¬ (r_property_id q = propertyId ∧ r_user_id q = userId req_user) in
  (status out.1 = 201%nat ↔ ∃ r, acceptable r) ∧
  (∀ r, acceptable r →
     db out.2 = set_reviews
                  (reviews (db st) ++
                     [{| r_id := rid; r_property_id := propertyId;
                         r_user_id := userId req_user; rating := r;
                         comment := comment_in |}]) (db st)) ∧
  (status out.1 ≠ 201%nat → out.2 = st) ∧
  (userType req_user ≠ "student" →
   out.1 = reply 403 "Only students can leave reviews.").
Proof.
  intros Hauth out acceptable.
  assert (∀ r, acceptable r →
            out = ({| status := 201;
                      body := BReview
                                {| r_id := rid; r_property_id := propertyId;
                                   r_user_id := userId req_user; rating := r;
                                   comment := comment_in |}
                                ((λ u, (username u, profilePictureUrl u)) <$>
                                   findById u_id (userId req_user) (users (db st))) |},
                   set_db (set_reviews
                             (reviews (db st) ++
                                [{| r_id := rid; r_property_id := propertyId;
                                    r_user_id := userId req_user; rating := r;
                                    comment := comment_in |}]) (db st)) st)) as Hok.
  { intros r (Hty & Hr & [Hlo Hhi] & Hc & Hlen & Hnew). subst out.
    unfold post_review, authenticated. rewrite Hauth, Hty, Hr. simpl.
    apply truthy_nonempty in Hc. rewrite Hc.
    destruct (r =? 0)%Z eqn:E0; [lia|]. simpl.
    unfold Review_save. simpl. rewrite Hc.
    destruct (1 <=? r)%Z eqn:E1; [|lia]. destruct (r <=? 5)%Z eqn:E2; [|lia].
    destruct (js_length comment_in <=? 1000)%nat eqn:E3;
      [|apply Nat.leb_gt in E3; lia]. simpl.
    replace (existsb _ (reviews (db st))) with false; [done|].
    symmetry. apply not_true_is_false. intros (q & Hin & Hq)%existsb_exists.
    unfold same_review in Hq. simpl in Hq.
    apply andb_true_iff in Hq as [H1%str_eq_true H2%str_eq_true].
    by apply (Hnew q); [apply list_elem_of_In|]. }
  split_and!.
  - split; [|intros [r Hr]; by rewrite (Hok r Hr)].
    subst out. unfold post_review, authenticated. rewrite Hauth.
    destruct (str_eq (userType req_user) "student") eqn:Ety; simpl; [|discriminate].
    destruct rating_in as [r|]; [|discriminate].
    destruct ((r =? 0)%Z || negb (truthy comment_in)) eqn:Eg; [discriminate|].
    unfold Review_save. simpl.
    destruct ((1 <=? r)%Z && (r <=? 5)%Z && truthy comment_in
              && (js_length comment_in <=? 1000)%nat) eqn:Ev;
      [|simpl; discriminate].
    destruct (existsb _ (reviews (db st))) eqn:Ex; [simpl; discriminate|].
    intros _. exists r. unfold acceptable.
    repeat (apply andb_true_iff in Ev as [Ev ?]).
    split_and!; try done.
    + by apply str_eq_true.
    + by apply Z.leb_le.
    + by apply Z.leb_le.
    + by apply truthy_nonempty.
    + by apply Nat.leb_le.
    + intros q Hin [Hq1 Hq2].
      assert (existsb (same_review
                {| r_id := rid; r_property_id := propertyId;
                   r_user_id := userId req_user; rating := r; comment := comment_in |})
                (reviews (db st)) = true); [|congruence].
      apply existsb_exists. exists q. split; [by apply list_elem_of_In|].
      unfold same_review. simpl. by rewrite Hq1, Hq2, !str_eq_refl.
  - intros r Hr. by rewrite (Hok r Hr).
  - subst out. unfold post_review, authenticated. rewrite Hauth.
    repeat case_match; simpl; done.
  - intros Hty. subst out. unfold post_review, authenticated. rewrite Hauth.
    apply str_eq_false in Hty. by rewrite Hty.
Qed.

(** X25: the review summary answers 200 with a fixed sentence when the
    property has fewer than two reviews, whatever the configuration; with two
    or more it answers 500 when no API key is configured, and it answers 200
    only with the non-empty text the service returned. *)
Theorem reviews_summary_outcomes (propertyId : Id) (ai : AiResult) (st : Server) :
  let found := List.filter (λ r, str_eq (r_property_id r) propertyId) (reviews (db st)) in
  let out := reviews_summary GEMINI_API_KEY propertyId ai st in
  ((List.length found < 2)%nat →
   out = Sent 200 "Not enough reviews to generate a summary.") ∧
  ((2 ≤ List.length found)%nat →
   (GEMINI_API_KEY = None ∨ GEMINI_API_KEY = Some "" →
    out = Refused (reply 500 "AI service is not configured.")) ∧
   (∀ code text, out = Sent code text →
      code = 200%nat ∧ text ≠ "" ∧ ai = AiAnswer (Some text) ∧
      ∃ key, GEMINI_API_KEY = Some key ∧ key ≠ "")).
Proof.
  intros found out. subst out found. unfold reviews_summary. split.
  - intros Hlt. apply Nat.ltb_lt in Hlt. by rewrite Hlt.
  - intros Hge. apply Nat.ltb_ge in Hge. rewrite Hge. split.
    + by intros [->| ->].
    + intros code text.
      destruct GEMINI_API_KEY as [key|]; simpl; [|done].
      destruct (truthy key) eqn:Hk; simpl; [|done].
      destruct ai as [|[summary|]]; try done.
      destruct (truthy summary) eqn:Hs; [|done].
      intros [= <- <-]. split_and!; try done; [by apply truthy_nonempty|].
      exists key. split; [done|by apply truthy_nonempty].
Qed.

(** X26: a password change with a wrong current password is answered 401
    and changes nothing; with the right one it is answered 200 and, when
    hashing and comparing agree, the user then logs in with the new
    password. *)
Theorem change_password_then_login (authorization : option string)
    (req_user : JwtPayload) (user : User) (email_in current new : string) (st : Server) :
  (∀ pw, bcrypt_compare pw (bcrypt_hash pw) = true) →
  auth' authorization = inr req_user →
  findById u_id (userId req_user) (users (db st)) = Some user →
  List.find (λ u, str_eq (email u) (String_toLowerCase email_in)) (users (db st)) = Some user →
  current ≠ "" → new ≠ "" →
  let out := change_password jwt_verify bcrypt_hash bcrypt_compare authorization
               current new st in
  (bcrypt_compare current (password user) = false →
   out = (reply 401 "Incorrect current password.", st)) ∧
  (bcrypt_compare current (password user) = true →
   out.1 = reply 200 "Password updated successfully!" ∧
   login' email_in new out.2 =
   {| status := 200;
      body := BSession (jwt_sign {| userId := u_id user; jwt_username := username user;
                                    userType := user_type user |})
                (with_password (bcrypt_hash new) user) |}).
Proof.
  intros Hlaw Hauth Hid Hmail Hcur Hnew out. subst out.
  apply truthy_nonempty in Hcur, Hnew.
  unfold change_password, authenticated. rewrite Hauth, Hcur, Hnew, Hid. simpl.
  split; intros Hc; rewrite Hc; simpl; [done|]. split; [done|].
  unfold login. simpl.
  rewrite (find_update_first _ _ _ _ user); [|done|exact Hmail|exact Hid].
  simpl. by rewrite Hlaw.
Qed.

(** X27: with unique user ids, renaming keeps user names unique and ids
    unchanged; a name that JavaScript's [trim] makes empty is answered 400,
    and after a 200 the stored name is the input after JavaScript's [trim],
    the section's [String_trim]. *)
Theorem update_username_keeps_names_unique (authorization : option string)
    (newUsername : string) (st : Server) :
  unique_user_ids (db st) → unique_usernames (db st) →
  let out := update_username jwt_verify jwt_sign String_trim authorization newUsername st in
  unique_usernames (db out.2) ∧
  List.map u_id (users (db out.2)) = List.map u_id (users (db st)) ∧
  (String_trim newUsername = "" →
   ∀ req_user, auth' authorization = inr req_user →
               out = (reply 400 "Username cannot be empty.", st)) ∧
  (status out.1 = 200%nat →
   ∃ req_user user,
     auth' authorization = inr req_user ∧
     findById u_id (userId req_user) (users (db out.2)) = Some user ∧
     username user = String_trim newUsername ∧ String_trim newUsername ≠ "").
Proof.
  intros Hids Hnames out. subst out. unfold update_username, authenticated.
  destruct (auth' authorization) as [r|req_user] eqn:Hauth; simpl.
  { split_and!; try done. intros Hr. exfalso. unfold authenticateToken in Hauth.
    destruct (bearer authorization); [destruct (jwt_verify s)|]; by simplify_eq. }
  destruct (negb (truthy newUsername) || str_eq (String_trim newUsername) "") eqn:Hempty.
  { simpl. split_and!; done. }
  apply orb_false_iff in Hempty as [_ Hempty%str_eq_false].
  destruct (existsb _ (users (db st))) eqn:Htaken.
  { simpl. split_and!; try done. }
  assert (List.map u_id
            (update_first (λ u, str_eq (u_id u) (userId req_user))
               (with_username (String_trim newUsername)) (users (db st)))
          = List.map u_id (users (db st))) as Hsame by (by apply map_update_first).
  assert (unique_usernames
            (set_users (update_first (λ u, str_eq (u_id u) (userId req_user))
                          (with_username (String_trim newUsername)) (users (db st))) (db st)))
    as Hunique.
  { unfold unique_usernames. simpl.
    apply (NoDup_update_name u_id username _ _ (String_trim newUsername)); [done..|].
    intros u Hu Hname.
    destruct (str_eq (u_id u) (userId req_user)) eqn:E; [by apply str_eq_true|].
    assert (existsb (λ u0, str_eq (username u0) (String_trim newUsername)
                           && negb (str_eq (u_id u0) (userId req_user)))
              (users (db st)) = true); [|congruence].
    apply existsb_exists. exists u. split; [by apply list_elem_of_In|].
    by rewrite Hname, str_eq_refl, E. }
  destruct (findById u_id (userId req_user) (update_first _ _ (users (db st))))
    as [updatedUser|] eqn:Hfind; simpl.
  - split_and!; try done.
    intros _. exists req_user, updatedUser. split_and!; try done.
    rewrite findById_update_first in Hfind by done. rewrite str_eq_refl in Hfind.
    destruct (findById u_id (userId req_user) (users (db st))) as [u0|];
      simpl in Hfind; by simplify_eq.
  - split_and!; done.
Qed.

(** X28: a student who deletes the account with the right password, with
    unique user ids: the user is gone, as are the student's favorites and the
    conversations the student started, while the student's reviews, every
    message, notification, property and view stay in the store.  A wrong
    password is answered 401 and changes nothing. *)
Theorem student_deletion_leaves_reviews (authorization : option string)
    (req_user : JwtPayload) (account : User) (password_in : string) (st : Server) :
  unique_user_ids (db st) →
  auth' authorization = inr req_user →
  findById u_id (userId req_user) (users (db st)) = Some account →
  password_in ≠ "" →
  let out := delete_account jwt_verify bcrypt_compare authorization password_in st in
  (bcrypt_compare password_in (password account) = false →
   out = (reply 401 "Incorrect password.", st)) ∧
  (bcrypt_compare password_in (password account) = true →
   userType req_user = "student" →
   out.1 = reply 200 "Your account has been permanently deleted." ∧
   findById u_id (userId req_user) (users (db out.2)) = None ∧
   (∀ f, f ∈ favorites (db out.2) ↔
         f ∈ favorites (db st) ∧ f_user_id f ≠ userId req_user) ∧
   (∀ c, c ∈ conversations (db out.2) ↔
         c ∈ conversations (db st) ∧ student_id c ≠ userId req_user) ∧
   reviews (db out.2) = reviews (db st) ∧
   messages (db out.2) = messages (db st) ∧
   notifications (db out.2) = notifications (db st) ∧
   properties (db out.2) = properties (db st) ∧
   views (db out.2) = views (db st)).
Proof.
  intros Hnd Hauth Hfind Hpw out. subst out. apply truthy_nonempty in Hpw.
  unfold delete_account, authenticated. rewrite Hauth, Hpw, Hfind. simpl.
  split; intros Hc; rewrite Hc; simpl; [done|].
  intros Hty. unfold cascade. rewrite Hty. simpl.
  split_and!; try done.
  - rewrite findById_delete_first by exact Hnd. by rewrite str_eq_refl.
  - intros f. rewrite deleteMany_spec, str_eq_false. done.
  - intros c. rewrite deleteMany_spec, str_eq_false. done.
Qed.

(** X29: marking as read sets the read flag of every notification of the
    caller and touches nothing else: the notifications keep their number and
    positions, those of other recipients are unchanged, and doing it again
    changes nothing. *)
Theorem mark_read_marks_own (authorization : option string) (req_user : JwtPayload)
    (st : Server) :
  auth' authorization = inr req_user →
  let out := mark_read jwt_verify authorization st in
  out.1 = reply 200 "All notifications marked as read." ∧
  (∀ i n, notifications (db st) !! i = Some n →
          notifications (db out.2) !! i =
          Some (if str_eq (recipient_id n) (userId req_user) then set_isRead true n else n)) ∧
  List.length (notifications (db out.2)) = List.length (notifications (db st)) ∧
  (∀ n, n ∈ notifications (db out.2) → recipient_id n = userId req_user →
        isRead n = true) ∧
  (mark_read jwt_verify authorization out.2).2 = out.2.
Proof.
  intros Hauth out. subst out. unfold mark_read, authenticated. rewrite Hauth. simpl.
  split_and!.
  - done.
  - intros i n Hn. rewrite (updateMany_lookup _ _ _ _ _ Hn).
    destruct (str_eq (recipient_id n) (userId req_user)); simpl; [|done].
    destruct (isRead n) eqn:Hr; simpl; [|done]. f_equal. destruct n. simpl in Hr.
    by subst.
  - unfold updateMany. by rewrite length_map.
  - intros n Hin Hrec. unfold updateMany in Hin.
    apply list_elem_of_In, in_map_iff in Hin as (m & Hm & _).
    destruct (str_eq (recipient_id m) (userId req_user) && negb (isRead m)) eqn:E.
    + by subst n.
    + subst n. apply str_eq_true in Hrec. rewrite Hrec in E. simpl in E.
      by apply negb_false_iff in E.
  - rewrite updateMany_twice; [done|]. intros x. simpl. apply andb_false_r.
Qed.


End RouteProperties.

(** * The further properties on the small deployment *)

Lemma Demo_hash_law (pw : string) : Demo.compare pw (Demo.hash pw) = true.
Proof. apply str_eq_refl. Defined.

Lemma Demo_unique_user_ids : unique_user_ids (db Demo.server).
Proof.
  unfold unique_user_ids. simpl.
  repeat (apply NoDup_cons; split;
          [rewrite ?elem_of_cons, elem_of_nil; intuition discriminate|]).
  apply NoDup_nil_2.
Defined.

Lemma Demo_unique_usernames : unique_usernames (db Demo.server).
Proof.
  unfold unique_usernames. simpl.
  repeat (apply NoDup_cons; split;
          [rewrite ?elem_of_cons, elem_of_nil; intuition discriminate|]).
  apply NoDup_nil_2.
Defined.

Lemma Demo_unique_property_ids : unique_property_ids (db Demo.server).
Proof.
  unfold unique_property_ids. simpl.
  repeat (apply NoDup_cons; split;
          [rewrite ?elem_of_cons, elem_of_nil; intuition discriminate|]).
  apply NoDup_nil_2.
Defined.

Lemma Demo_no_favorite_of_p3 (f : Favorite) :
  f ∈ favorites (db Demo.server) → ¬ (f_user_id f = "s1" ∧ f_property_id f = "p3").
Proof.
  simpl. rewrite !elem_of_cons, elem_of_nil.
  intros [->|[->|[]]] [_ H]; discriminate H.
Defined.

(** X1 on the deployment: socket 2 has not authenticated; its chat frame is
    ignored. *)
Lemma unauthenticated_frames_ignored_witness :
  on_message Demo.verify 2 (MessageFrame "c1" "hello") "m1" Demo.server = Demo.server.
Proof.
  apply (unauthenticated_frames_ignored Demo.verify 2 Demo.fresh);
    [reflexivity|reflexivity|intros token H; discriminate H].
Defined.

(** X2 on the deployment: socket 2 sends a token that does not verify. *)
Lemma invalid_token_closes_socket_witness :
  let st' := on_message Demo.verify 2 (AuthFrame "forged") "" Demo.server in
  clients st' = clients Demo.server ∧ ∀ id, open_client st' id ≠ Some 2%nat.
Proof.
  destruct (invalid_token_closes_socket Demo.verify 2 Demo.fresh "forged" "" Demo.server
              eq_refl ltac:(discriminate) eq_refl) as (Hc & _ & _ & _ & Hopen).
  split; [exact Hc|exact Hopen].
Defined.

(** X3 on the deployment: socket 2 authenticates as Sam and then as Lea, and
    closes. *)
Lemma reauth_leaves_stale_entry_witness :
  let st1 := on_message Demo.verify 2 (AuthFrame "tok-sam") "" Demo.server in
  let st2 := on_message Demo.verify 2 (AuthFrame "tok-lea") "" st1 in
  let st3 := on_close 2 st2 in
  get "s1" (clients st2) = Some 2%nat ∧
  get "l1" (clients st2) = Some 2%nat ∧
  get "s1" (clients st3) = Some 2%nat ∧
  get "l1" (clients st3) = None ∧
  open_client st3 "s1" = None.
Proof.
  apply (reauth_leaves_stale_entry Demo.verify 2 Demo.fresh "tok-sam" "tok-lea"
           Sample.sam_token Sample.lea_token "" "" Demo.server);
    first [reflexivity | discriminate].
Defined.



(** X8 on the deployment: Sam reviews p2 and then tries to review it again. *)
Lemma reviews_stay_valid_and_unique_witness :
  unique_reviews
    (db (run Demo.verify Demo.sign Demo.hash Demo.compare Demo.lower Demo.strip
           Sample.api_key
           [Http (PostReview (Some "Bearer tok-sam") "p2" (Some 5%Z) "Great." "r2");
            Http (PostReview (Some "Bearer tok-sam") "p2" (Some 1%Z) "Bad." "r3")]
           Demo.server)).
Proof.
  apply (reviews_stay_valid_and_unique Demo.verify Demo.sign Demo.hash Demo.compare
           Demo.lower Demo.strip Sample.api_key).
  - simpl. apply Forall_singleton. unfold valid_review. simpl.
    split; [lia|]. split; [discriminate|lia].
  - unfold unique_reviews. simpl. apply NoDup_singleton.
Defined.

(** X9 on the deployment: two requests of Sam about p2 both look up before
    either saves. *)
Lemma overlapping_requests_duplicate_conversation_witness :
  let first := post_conversations_create Sample.sam_token "p2" "l2" "c2" Demo.server in
  let second := post_conversations_create Sample.sam_token "p2" "l2" "c3" first.2 in
  first.1 = Sent 201 "c2" ∧ second.1 = Sent 201 "c3" ∧
  ¬ unique_conversations (db second.2).
Proof.
  destruct (overlapping_requests_duplicate_conversation Demo.verify
              (Some "Bearer tok-sam") (Some "Bearer tok-sam")
              Sample.sam_token Sample.sam_token "p2" "l2" "l2" "c2" "c3" Demo.server
              eq_refl eq_refl eq_refl) as (H1 & H2 & _ & Hdup & _).
  split; [exact H1|]. split; [exact H2|exact Hdup].
Defined.

(** X10 on the deployment: the header the client builds for Sam's token. *)
Lemma header_second_word_decides_witness :
  authenticateToken Demo.verify (Some "Bearer tok-sam") = inr Sample.sam_token.
Proof.
  exact (header_second_word_decides Demo.verify "Bearer" "tok-sam" eq_refl eq_refl).
Defined.

(** X11 on the deployment: a deletion without a header. *)
Lemma refused_header_changes_nothing_witness :
  handle Demo.verify Demo.sign Demo.hash Demo.compare Demo.lower Demo.strip
    (DeleteProperty None "p1") Demo.server
  = (sendStatus 401 "Unauthorized", Demo.server).
Proof.
  exact (proj1 (refused_header_changes_nothing Demo.verify Demo.sign Demo.hash Demo.compare
                  Demo.lower Demo.strip
                  (DeleteProperty None "p1") (sendStatus 401 "Unauthorized")
                  Demo.server eq_refl eq_refl)).
Defined.

(** X12 on the deployment: Sam's e-mail in capital letters is taken. *)
Lemma signup_conflicts_witness :
  signup Demo.sign Demo.hash Demo.lower Demo.strip
    "SAM@Example.org" "pw" "student" "sammy" "u9" Demo.server
  = (reply 409 "Email already registered.", Demo.server).
Proof.
  apply (proj1 (signup_conflicts Demo.sign Demo.hash Demo.lower Demo.strip
                  "SAM@Example.org" "pw" "student"
                  "sammy" "u9" Demo.sam Demo.server ltac:(left))).
  reflexivity.
Defined.

(** X13 on the deployment: Ann signs up and logs in. *)
Lemma signup_then_login_witness :
  status (login Demo.sign Demo.compare Demo.lower "Ann@Example.org" "pw-ann"
            (signup Demo.sign Demo.hash Demo.lower Demo.strip
               "Ann@Example.org" "pw-ann" "student" " ann " "u9"
               Demo.server).2) = 200%nat.
Proof.
  destruct (signup_then_login Demo.sign Demo.hash Demo.compare Demo.lower Demo.strip
              "Ann@Example.org" "pw-ann" "student" " ann " "u9" Demo.server
              Demo_hash_law eq_refl) as (_ & _ & Hlogin).
  exact (f_equal status Hlogin).
Defined.

(** X15 on the deployment: Lea is approved and uploads again. *)
Lemma verification_flag_follows_action_witness :
  ∃ u2, findById u_id "l1"
          (users (db (upload_verification "l1" "scan"
                        (verify_action "l1" "approve" Demo.server).2).2)) = Some u2 ∧
        verificationStatus u2 = VPending ∧ isVerified u2 = true.
Proof.
  destruct (proj1 (verification_flag_follows_action "l1" "approve" "scan" Demo.lea
                     Demo.server (or_introl eq_refl) ltac:(discriminate)
                     ltac:(discriminate)) eq_refl)
    as (u1 & u2 & _ & Hflag & _ & _ & H2 & Hp & Hsame & _).
  exists u2. split; [exact H2|]. split; [exact Hp|].
  rewrite Hsame. apply Hflag. reflexivity.
Defined.

(** X16 on the deployment: Lea uploads and is rejected. *)
Lemma pending_list_follows_requests_witness :
  (∃ v, v ∈ admin_verifications (upload_verification "l1" "scan" Demo.server).2 ∧
        u_id v = "l1") ∧
  (∀ v, v ∈ admin_verifications
              (verify_action "l1" "reject"
                 (upload_verification "l1" "scan" Demo.server).2).2 →
        u_id v ≠ "l1").
Proof.
  exact (proj2 (pending_list_follows_requests "l1" "reject" "scan" Demo.lea
                  Demo.server Demo_unique_user_ids eq_refl (or_intror eq_refl)
                  ltac:(discriminate) ltac:(discriminate))).
Defined.

(** X18 on the deployment: Lea deletes p1, which Sam has favorited. *)
Lemma delete_property_leaves_references_witness :
  let out := delete_property Demo.verify (Some "Bearer tok-lea") "p1" Demo.server in
  get_property "p1" out.2 = Refused (reply 404 "Property not found") ∧
  favorites (db out.2) = favorites (db Demo.server).
Proof.
  destruct (delete_property_leaves_references Demo.verify (Some "Bearer tok-lea")
              Sample.lea_token "p1" (Demo.flat "p1" "l1") Demo.server
              Demo_unique_property_ids eq_refl eq_refl eq_refl)
    as (_ & Hgone & Hfav & _).
  split; [exact Hgone|exact Hfav].
Defined.

(** X19 on the deployment: Lea hands p1 over to Lou. *)
Lemma edit_can_hand_over_property_witness :
  let out := put_property Demo.verify (Some "Bearer tok-lea") "p1" Sample.handover
               Demo.server in
  status out.1 = 200%nat ∧
  delete_property Demo.verify (Some "Bearer tok-lea") "p1" out.2
  = (reply 403 "User not authorized", out.2).
Proof.
  destruct (edit_can_hand_over_property Demo.verify (Some "Bearer tok-lea")
              Sample.lea_token "p1" "l2" Sample.handover Demo.no_fields
              (Demo.flat "p1" "l1") Demo.server
              eq_refl eq_refl eq_refl eq_refl ltac:(discriminate))
    as (Hok & _ & _ & Hdel).
  split; [exact Hok|exact Hdel].
Defined.

(** X20 on the deployment: Sam favorites p3 and removes the favorite. *)
Lemma favorite_add_remove_round_trip_witness :
  favorites (db (delete_favorite Demo.verify (Some "Bearer tok-sam") "p3"
                   (post_favorites Demo.verify (Some "Bearer tok-sam") (Some "p3")
                      "f3" "n1" Demo.server).2).2)
  = favorites (db Demo.server).
Proof.
  destruct (favorite_add_remove_round_trip Demo.verify (Some "Bearer tok-sam")
              Sample.sam_token "p3" "f3" "n1" Demo.server eq_refl Demo_no_favorite_of_p3)
    as (_ & _ & _ & Hback & _).
  exact Hback.
Defined.


(** X23 on the deployment: Sam writes to c1 and Lea reads the conversation. *)
Lemma chat_message_visibility_witness :
  get_messages Demo.verify (Some "Bearer tok-lea") "c1"
    (on_message Demo.verify 0 (MessageFrame "c1" "hello") "m1" Demo.server)
  = Sent 200 [{| m_id := "m1"; conversation_id := "c1"; sender_id := "s1";
                 content := "hello" |}]
  ∧ get_messages Demo.verify (Some "Bearer tok-lou") "c1"
      (on_message Demo.verify 0 (MessageFrame "c1" "hello") "m1" Demo.server)
    = Refused (reply 403 "Unauthorized.").
Proof.
  assert (unique_conversation_ids (db Demo.server)) as Hnd
    by (unfold unique_conversation_ids; simpl; apply NoDup_singleton).
  split.
  - destruct (proj1 (chat_message_visibility Demo.verify 0 (Demo.idle "s1" "student") "s1"
                       "c1" Demo.thread "hello" "m1" (Some "Bearer tok-lea")
                       Sample.lea_token Demo.server Hnd eq_refl eq_refl
                       ltac:(discriminate) eq_refl ltac:(discriminate) eq_refl)
                (or_intror eq_refl)) as (before & Hb & Ha).
    injection Hb as <-. exact Ha.
  - apply (proj2 (chat_message_visibility Demo.verify 0 (Demo.idle "s1" "student") "s1"
                    "c1" Demo.thread "hello" "m1" (Some "Bearer tok-lou")
                    Sample.lou_token Demo.server Hnd eq_refl eq_refl
                    ltac:(discriminate) eq_refl ltac:(discriminate) eq_refl));
      discriminate.
Defined.

(** The bound on a comment counts UTF-16 units, not bytes: a comment of 334
    euro signs is 1002 bytes and 334 units long, and Sam's review of p2 with
    it is accepted. *)
Lemma long_euro_comment_accepted :
  let comment := String.concat "" (List.repeat "€" 334) in
  String.length comment = 1002%nat ∧ js_length comment = 334%nat ∧
  status (post_review Demo.verify (Some "Bearer tok-sam") "p2" (Some 5%Z) comment "r2"
            Demo.server).1 = 201%nat.
Proof. vm_compute. split_and!; reflexivity. Qed.

(** X24 on the deployment: Sam's first review of p2 is accepted. *)
Lemma post_review_outcomes_witness :
  status (post_review Demo.verify (Some "Bearer tok-sam") "p2" (Some 5%Z) "Great." "r2"
            Demo.server).1 = 201%nat.
Proof.
  apply (proj1 (post_review_outcomes Demo.verify (Some "Bearer tok-sam") Sample.sam_token
                  "p2" (Some 5%Z) "Great." "r2" Demo.server eq_refl)).
  exists 5%Z. split; [reflexivity|]. split; [reflexivity|]. split; [lia|].
  split; [discriminate|]. split; [simpl; lia|].
  simpl. intros q Hq [H _]. apply list_elem_of_singleton in Hq. subst q. discriminate H.
Defined.

(** X26 on the deployment: Sam changes the password and logs in with it. *)
Lemma change_password_then_login_witness :
  status (login Demo.sign Demo.compare Demo.lower "sam@example.org" "fresh"
            (change_password Demo.verify Demo.hash Demo.compare (Some "Bearer tok-sam")
               "pw-sam" "fresh" Demo.server).2) = 200%nat.
Proof.
  destruct (change_password_then_login Demo.verify Demo.sign Demo.hash Demo.compare
              Demo.lower (Some "Bearer tok-sam") Sample.sam_token Demo.sam "sam@example.org"
              "pw-sam" "fresh" Demo.server Demo_hash_law eq_refl eq_refl eq_refl
              ltac:(discriminate) ltac:(discriminate)) as [_ Hright].
  destruct (Hright eq_refl) as [_ Hlogin].
  exact (f_equal status Hlogin).
Defined.

(** X27 on the deployment: Sam takes a new name. *)
Lemma update_username_keeps_names_unique_witness :
  unique_usernames
    (db (update_username Demo.verify Demo.sign Demo.strip (Some "Bearer tok-sam")
           " sammy " Demo.server).2).
Proof.
  exact (proj1 (update_username_keeps_names_unique Demo.verify Demo.sign Demo.strip
                  (Some "Bearer tok-sam") " sammy " Demo.server
                  Demo_unique_user_ids Demo_unique_usernames)).
Defined.

(** X28 on the deployment: Sam deletes the account; the review of p1 stays. *)
Lemma student_deletion_leaves_reviews_witness :
  let out := delete_account Demo.verify Demo.compare (Some "Bearer tok-sam") "pw-sam"
               Demo.server in
  findById u_id "s1" (users (db out.2)) = None ∧
  reviews (db out.2) = reviews (db Demo.server).
Proof.
  destruct (student_deletion_leaves_reviews Demo.verify Demo.compare
              (Some "Bearer tok-sam") Sample.sam_token Demo.sam "pw-sam" Demo.server
              Demo_unique_user_ids eq_refl eq_refl ltac:(discriminate)) as [_ Hright].
  destruct (Hright eq_refl eq_refl) as (_ & Hgone & _ & _ & Hrev & _).
  split; [exact Hgone|exact Hrev].
Defined.

(** X29 on the deployment: Lea marks the notification about p3 as read. *)
Lemma mark_read_marks_own_witness :
  let out := mark_read Demo.verify (Some "Bearer tok-lea") Sample.notified in
  out.1 = reply 200 "All notifications marked as read." ∧
  (∀ n, n ∈ notifications (db out.2) → recipient_id n = "l1" → isRead n = true).
Proof.
  destruct (mark_read_marks_own Demo.verify (Some "Bearer tok-lea") Sample.lea_token
              Sample.notified eq_refl) as (Hok & _ & _ & Hread & _).
  split; [exact Hok|exact Hread].
Defined.


(** X22 on the deployment: Sam starts a conversation about p2, then asks
    again and names another landlord. *)
Lemma conversation_get_or_create_witness :
  (post_conversations Demo.verify (Some "Bearer tok-sam") "p2" "l1" "c3"
     (post_conversations Demo.verify (Some "Bearer tok-sam") "p2" "l2" "c2"
        Demo.server).2).1
  = Sent 200 "c2".
Proof.
  destruct (conversation_get_or_create Demo.verify (Some "Bearer tok-sam")
              Sample.sam_token "p2" "l2" "l1" "c2" "c3" Demo.server eq_refl)
    as (cid & Hsecond & [(H200 & _)|(_ & -> & _)]).
  - discriminate H200.
  - exact (f_equal fst Hsecond).
Defined.
